(** * Cosmic Forge: computed fields of entity templates

    A shallow embedding of the two places of the front end that deal with
    computed fields:

    - [CreateEntityModal.handleSubmit] (components/CreateEntityModal.jsx),
      which evaluates every computed field of a template when an entity is
      created, by building JavaScript source text around the field's formula
      and running it with [new Function];
    - [CreateTemplateModal.handleSubmit] (components/CreateTemplateModal.js),
      which produces the schema entries of a new template.

    JavaScript strings are modelled as [string], one character per code
    unit, for code units below 256.  An array is given by its contents.
    The copies of lines 24 and 50 of the entity modal are shallow: the
    arrays of the form data are the arrays [finalData], the context and
    the constants of the generated function hold, so a formula can
    change one in place, and the host says what it left in them. *)

From Stdlib Require Import Bool List ZArith NArith Lia String Ascii.
From Stdlib Require Import DecimalString Permutation.
Import ListNotations.

Local Open Scope string_scope.
Local Open Scope list_scope.

(* ================================================================== *)
(** ** JavaScript strings *)

Module JsString.

Definition LF : string := String (ascii_of_nat 10) EmptyString.
Definition DQUOTE : string := String (ascii_of_nat 34) EmptyString.

Definition isEmpty (s : string) : bool :=
  match s with EmptyString => true | String _ _ => false end.

(** [\s] of a regular expression, and the characters [trim] strips:
    TAB, LF, VT, FF, CR, SPACE and NBSP (the members below 256). *)
Definition isWhiteSpace (c : ascii) : bool :=
  let n := nat_of_ascii c in
  (Nat.eqb n 9 || Nat.eqb n 10 || Nat.eqb n 11 || Nat.eqb n 12
   || Nat.eqb n 13 || Nat.eqb n 32 || Nat.eqb n 160)%bool.

(** Line terminators: what [.] does not match and where [^] and [$]
    match under the [m] flag (LF and CR; the others are above 255). *)
Definition isLineTerminator (c : ascii) : bool :=
  let n := nat_of_ascii c in (Nat.eqb n 10 || Nat.eqb n 13)%bool.

Definition isLF (c : ascii) : bool := Nat.eqb (nat_of_ascii c) 10.

Definition isDigit (c : ascii) : bool :=
  let n := nat_of_ascii c in (Nat.leb 48 n && Nat.leb n 57)%bool.

Fixpoint drop (n : nat) (s : string) : string :=
  match n, s with
  | S k, String _ rest => drop k rest
  | _, _ => s
  end.

Fixpoint trimStart (s : string) : string :=
  match s with
  | EmptyString => EmptyString
  | String c rest => if isWhiteSpace c then trimStart rest else s
  end.

Fixpoint trimEnd (s : string) : string :=
  match s with
  | EmptyString => EmptyString
  | String c rest =>
      match trimEnd rest with
      | EmptyString => if isWhiteSpace c then EmptyString else String c EmptyString
      | r => String c r
      end
  end.

(** [String.prototype.trim] *)
Definition trim (s : string) : string := trimEnd (trimStart s).

(** [s.split(',')]: always at least one piece. *)
Fixpoint split_comma (s : string) : list string :=
  match s with
  | EmptyString => [EmptyString]
  | String c rest =>
      if Ascii.eqb c ","%char then EmptyString :: split_comma rest
      else match split_comma rest with
           | [] => [String c EmptyString]
           | piece :: pieces => String c piece :: pieces
           end
  end.

(** [pieces.join(sep)] *)
Fixpoint join (sep : string) (pieces : list string) : string :=
  match pieces with
  | [] => EmptyString
  | [p] => p
  | p :: rest => p ++ sep ++ join sep rest
  end.

(** Value of a sequence of decimal digits. *)
Fixpoint digitsValue (acc : N) (s : string) : option N :=
  match s with
  | EmptyString => Some acc
  | String c rest =>
      if isDigit c
      then digitsValue (acc * 10 + (N_of_ascii c - 48))%N rest
      else None
  end.

End JsString.

(* ================================================================== *)
(** ** JavaScript values and objects used as maps *)

Module Js.
Import JsString.

(** Numbers: the integer-valued doubles (exact up to 2^53 in magnitude)
    and NaN.  Fractions and infinities are not represented.  Arrays are
    the arrays of strings a multiselect field holds, given by their
    contents; an array with an element that is no string is not
    represented. *)
Inductive number : Type :=
| NInt (z : Z)
| NNaN.

Inductive value : Type :=
| VUndefined
| VNull
| VBool (b : bool)
| VNum (n : number)
| VStr (s : string)
| VArr (items : list string).

(** A plain object used as a map from property names to values.  The list
    is kept in the order in which [Object.keys] enumerates own properties:
    array-index names in ascending numeric order first, then the other
    names in creation order.  The name [__proto__] is not a data property
    of a plain object and is outside the model. *)
Definition obj : Type := list (string * value).

(** [Some n] when the name is the canonical decimal text of an array
    index n (0 <= n <= 2^32 - 2). *)
Definition arrayIndex (k : string) : option N :=
  match k with
  | EmptyString => None
  | String c rest =>
      if (Ascii.eqb c "0"%char && negb (isEmpty rest))%bool then None
      else match digitsValue 0 k with
           | Some n => if (n <=? 4294967294)%N then Some n else None
           | None => None
           end
  end.

(** A new property named [k] is enumerated before the existing [k']. *)
Definition precedes (k k' : string) : bool :=
  match arrayIndex k, arrayIndex k' with
  | Some a, Some b => (a <? b)%N
  | Some _, None => true
  | None, _ => false
  end.

(** [o[k] = v] *)
Fixpoint setProp (o : obj) (k : string) (v : value) : obj :=
  match o with
  | [] => [(k, v)]
  | (k', v') :: o' =>
      if String.eqb k k' then (k, v) :: o'
      else if precedes k k' then (k, v) :: o
      else (k', v') :: setProp o' k v
  end.

(** [o[k]] *)
Fixpoint getProp (o : obj) (k : string) : value :=
  match o with
  | [] => VUndefined
  | (k', v') :: o' => if String.eqb k k' then v' else getProp o' k
  end.

(** [Object.hasOwn(o, k)] *)
Fixpoint hasProp (o : obj) (k : string) : bool :=
  match o with
  | [] => false
  | (k', _) :: o' => if String.eqb k k' then true else hasProp o' k
  end.

(** [Object.keys(o)] *)
Definition ownKeys (o : obj) : list string := map fst o.

End Js.

(* ================================================================== *)
(** ** The host: what [new Function] and a call of the result do *)

Module Host.
Import JsString Js.

(** What a formula can throw: an [Error] instance (the engine's own
    SyntaxError, ReferenceError and TypeError are such), or any other
    value by a [throw] statement inside the formula. *)
Inductive thrown : Type :=
| ThrownError (errorName message : string)
| ThrownValue (v : value).

Inductive outcome : Type :=
| Returned (result : value)
| Threw (e : thrown).

(** [new Function(parameter, body)] followed by a call of the new
    function on one argument, in a global state: the outcome (a
    SyntaxError of the construction and anything the call throws are
    both [Threw]; the call is taken to return), the arrays of the
    argument as the call left them, and the global state it left.

    The second component lists, under the name the argument holds an
    array by, the contents of that array after the call; an array it
    does not list was left as it was.  Two names can hold the same array
    (a formula may return an array it was handed); the model keeps no
    identities, and a host reports a change under each name it
    concerns.  Hosts are thereby free to change the arrays of two names
    independently, which an engine does only when they are two arrays:
    what holds for every host holds for the engine. *)
Definition host (World : Type) : Type :=
  string -> string -> obj -> World -> outcome * obj * World.

Definition outcomeOf {World : Type} (r : outcome * obj * World) : outcome :=
  fst (fst r).

Definition arraysOf {World : Type} (r : outcome * obj * World) : obj :=
  snd (fst r).

Definition isArray (v : value) : bool :=
  match v with VArr _ => true | _ => false end.

(** What a value held by an object can have become while formulas ran
    and nothing was assigned to the property: a primitive is still
    itself; an array is still an array, with the contents the formulas
    left in it. *)
Definition heldAs (v v' : value) : Prop :=
  match v with
  | VArr _ => exists items, v' = VArr items
  | _ => v' = v
  end.

(** The text [`${e.message}`] for a caught [e], or the TypeError that
    reading a property of [null] or [undefined] raises (text as in V8).
    Primitives and arrays have no [message] property: the text is
    [undefined]. *)
Definition messageOf (e : thrown) : string + thrown :=
  match e with
  | ThrownError _ m => inl m
  | ThrownValue VUndefined =>
      inr (ThrownError "TypeError"
             "Cannot read properties of undefined (reading 'message')")
  | ThrownValue VNull =>
      inr (ThrownError "TypeError"
             "Cannot read properties of null (reading 'message')")
  | ThrownValue _ => inl "undefined"
  end.

End Host.

(* ================================================================== *)
(** ** components/CreateEntityModal.jsx *)

Module CreateEntityModal.
Import JsString Js Host.

(** An entry of [template.schema], as the modal reads it. *)
Record FieldSchema : Type := {
  name : string;
  type : string;
  options : option (list string);
  formula : option string
}.

(** *** Cleaning of a formula (lines 34-42) *)

(** [.replace(/\/\/.*$/gm, '')]: from each [//] up to, not including,
    the next line terminator. *)
Fixpoint removeLineComments (inComment : bool) (s : string) : string :=
  match s with
  | EmptyString => EmptyString
  | String c rest =>
      if inComment then
        if isLineTerminator c
        then String c (removeLineComments false rest)
        else removeLineComments true rest
      else
        match rest with
        | String c2 _ =>
            if (Ascii.eqb c "/"%char && Ascii.eqb c2 "/"%char)%bool
            then removeLineComments true rest
            else String c (removeLineComments false rest)
        | EmptyString => String c EmptyString
        end
  end.

(** Does [*/] occur in [s]? *)
Fixpoint hasBlockEnd (s : string) : bool :=
  match s with
  | EmptyString => false
  | String c rest =>
      match rest with
      | String c2 _ =>
          if (Ascii.eqb c "*"%char && Ascii.eqb c2 "/"%char)%bool then true
          else hasBlockEnd rest
      | EmptyString => false
      end
  end.

(** [.replace(/\/\*[\s\S]*?\*\//g, '')]: each [/*] through the first
    [*/] after it; a [/*] that is never closed stays. *)
Fixpoint removeBlockComments (inBlock : bool) (s : string) : string :=
  match s with
  | EmptyString => EmptyString
  | String c rest =>
      match rest with
      | String c2 rest2 =>
          if inBlock then
            if (Ascii.eqb c "*"%char && Ascii.eqb c2 "/"%char)%bool
            then removeBlockComments false rest2
            else removeBlockComments true rest
          else
            if (Ascii.eqb c "/"%char && Ascii.eqb c2 "*"%char
                && hasBlockEnd rest2)%bool
            then removeBlockComments true rest2
            else String c (removeBlockComments false rest)
      | EmptyString => if inBlock then EmptyString else String c EmptyString
      end
  end.

(** Length of the match of [\s*\n] at the head of [s]: the longest run
    of white space that ends in a line feed. *)
Fixpoint blankThroughLF (s : string) : option nat :=
  match s with
  | EmptyString => None
  | String c rest =>
      if isWhiteSpace c then
        match blankThroughLF rest with
        | Some k => Some (S k)
        | None => if isLF c then Some 1 else None
        end
      else None
  end.

(** [.replace(/^\s*\n/gm, '')]: [atLineStart] says that [^] matches
    here, [skip] counts the characters of a match still to drop. *)
Fixpoint removeLeadingBlankLines (atLineStart : bool) (skip : nat)
  (s : string) : string :=
  match s with
  | EmptyString => EmptyString
  | String c rest =>
      match skip with
      | S k => removeLeadingBlankLines (isLineTerminator c) k rest
      | O =>
          match (if atLineStart then blankThroughLF s else None) with
          | Some (S k) => removeLeadingBlankLines (isLineTerminator c) k rest
          | _ => String c (removeLeadingBlankLines (isLineTerminator c) 0 rest)
          end
      end
  end.

(** Length of the match of [\s*$] (flag [m]) at the head of [s]: the
    longest run of white space that stops at the end of the input or
    before a line terminator. *)
Fixpoint blankToLineEnd (s : string) : option nat :=
  match s with
  | EmptyString => Some 0
  | String c rest =>
      if isWhiteSpace c then
        match blankToLineEnd rest with
        | Some k => Some (S k)
        | None => if isLineTerminator c then Some 0 else None
        end
      else None
  end.

(** [.replace(/\n\s*$/gm, '')] *)
Fixpoint removeTrailingBlankLines (skip : nat) (s : string) : string :=
  match s with
  | EmptyString => EmptyString
  | String c rest =>
      match skip with
      | S k => removeTrailingBlankLines k rest
      | O =>
          match (if isLF c then blankToLineEnd rest else None) with
          | Some k => removeTrailingBlankLines k rest
          | None => String c (removeTrailingBlankLines 0 rest)
          end
      end
  end.

(** [.replace(/^\s*\n/, '')]: the first match only, at the very start. *)
Definition removeFirstBlankLine (s : string) : string :=
  match blankThroughLF s with
  | Some k => drop k s
  | None => s
  end.

Definition cleanFormula (formula : string) : string :=
  removeFirstBlankLine
    (trim
       (removeTrailingBlankLines 0
          (removeLeadingBlankLines true 0
             (removeBlockComments false
                (removeLineComments false formula))))).

(** *** The generated source text (lines 47-61) *)

(** [Object.keys(finalData).forEach(key => { context[key] = finalData[key]; })] *)
Definition makeContext (finalData : obj) : obj :=
  fold_left (fun context key => setProp context key (getProp finalData key))
            (ownKeys finalData) [].

Definition constDeclaration (key : string) : string :=
  "const " ++ key ++ " = context['" ++ key ++ "'];".

Definition functionBody (context : obj) (cleanFormula : string) : string :=
  LF ++ "            return (function() { " ++ LF
     ++ "              "
     ++ join LF (map constDeclaration (ownKeys context)) ++ LF
     ++ "              return " ++ cleanFormula ++ ";" ++ LF
     ++ "            })();" ++ LF
     ++ "          ".

(** The arrays of [finalData] after a call that was handed them in
    [context] (line 50 copies references) and left [arrays] in them.
    The call cannot reach [finalData] itself: its names and its
    primitive values stay. *)
Definition inPlace (arrays : obj) (finalData : obj) : obj :=
  map (fun kv =>
         match snd kv, getProp arrays (fst kv) with
         | VArr _, VArr items => (fst kv, VArr items)
         | _, _ => kv
         end)
      finalData.

(** *** The evaluation pass (lines 24-80) *)

Section Pass.

(** The global state formulas can read and write, and the host.  The
    [console] output of the pass is not modelled. *)
Variable World : Type.
Variable newFunction : host World.

(** [finalData], the component's [error] state as last set by
    [setError] ([None]: not set), and the global state. *)
Record passState : Type := {
  finalData : obj;
  error : option string;
  world : World
}.

Inductive completion : Type :=
| Normal (st : passState)
| Abrupt (e : thrown) (st : passState).

(** [field.type === 'computed' && field.formula] *)
Definition isEvaluated (field : FieldSchema) : bool :=
  (String.eqb (type field) "computed"
   && match formula field with
      | Some f => negb (isEmpty f)
      | None => false
      end)%bool.

Definition formulaText (field : FieldSchema) : string :=
  match formula field with Some f => f | None => EmptyString end.

Definition errorText (fieldName message : string) : string :=
  "Error in formula for " ++ DQUOTE ++ fieldName ++ DQUOTE ++ ": "
    ++ message ++ ". Check the console for more details.".

(** The host call of one field: lines 34-67. *)
Definition compute (st : passState) (field : FieldSchema)
  : outcome * obj * World :=
  let clean := cleanFormula (formulaText field) in
  let context := makeContext (finalData st) in
  newFunction "context" (functionBody context clean) context (world st).

(** Lines 71 and 72-78: what is done with the host's outcome, on the
    [finalData] whose arrays the call has or has not changed. *)
Definition settle (st : passState) (field : FieldSchema)
  (r : outcome * obj * World) : completion :=
  match r with
  | (Returned result, arrays, w) =>
      Normal {| finalData := setProp (inPlace arrays (finalData st))
                                     (name field) result;
                error := error st;
                world := w |}
  | (Threw e, arrays, w) =>
      match messageOf e with
      | inl m =>
          Normal {| finalData := setProp (inPlace arrays (finalData st))
                                         (name field) (VStr ("ERROR: " ++ m));
                    error := Some (errorText (name field) m);
                    world := w |}
      | inr typeError =>
          Abrupt typeError
                 {| finalData := inPlace arrays (finalData st);
                    error := error st;
                    world := w |}
      end
  end.

(** The entry [settle] stores for an outcome; none when reading the
    message of the thrown value throws in its turn. *)
Definition entryOf (r : outcome * obj * World) : option value :=
  match outcomeOf r with
  | Returned result => Some result
  | Threw e =>
      match messageOf e with
      | inl m => Some (VStr ("ERROR: " ++ m))
      | inr _ => None
      end
  end.

(** The callback of [template.schema.forEach]. *)
Definition evaluateField (st : passState) (field : FieldSchema) : completion :=
  if isEvaluated field then settle st field (compute st field)
  else Normal st.

Fixpoint forEach (schema : list FieldSchema) (st : passState) : completion :=
  match schema with
  | [] => Normal st
  | field :: rest =>
      match evaluateField st field with
      | Normal st' => forEach rest st'
      | Abrupt e st' => Abrupt e st'
      end
  end.

(** [const finalData = { ...formData }], before any [setError]. *)
Definition initialState (formData : obj) (w : World) : passState :=
  {| finalData := formData; error := None; world := w |}.

(** Lines 24-80. *)
Definition evaluateComputed (schema : list FieldSchema) (formData : obj)
  (w : World) : completion :=
  forEach schema (initialState formData w).

Definition stateOf (c : completion) : passState :=
  match c with Normal st => st | Abrupt _ st => st end.

(** The state in which line 77 leaves the pass when the host call of
    [field] threw a value whose message text is [m], left [arrays] in
    the arrays it was handed and [w] as the global state. *)
Definition afterFailure (st : passState) (field : FieldSchema) (m : string)
  (arrays : obj) (w : World) : passState :=
  {| finalData := setProp (inPlace arrays (finalData st)) (name field)
                          (VStr ("ERROR: " ++ m));
     error := Some (errorText (name field) m);
     world := w |}.

Definition escaped (c : completion) : option thrown :=
  match c with Normal _ => None | Abrupt e _ => Some e end.

(** *** [handleSubmit] up to the request it sends (lines 16-95) *)

Record payload : Type := {
  project_id : string;
  payload_name : string;
  data : obj
}.

Inductive submission : Type :=
| Rejected (message : string)
| Failed (e : thrown) (st : passState)
| Posted (p : payload) (st : passState).

Definition handleSubmit (projectId entityName : string)
  (schema : list FieldSchema) (formData : obj) (w : World) : submission :=
  if isEmpty (trim entityName) then Rejected "Entity name is required"
  else
    match evaluateComputed schema formData w with
    | Normal st =>
        Posted {| project_id := projectId;
                  payload_name := entityName;
                  data := finalData st |} st
    | Abrupt e st => Failed e st
    end.

End Pass.

Arguments finalData {World} _.
Arguments error {World} _.
Arguments world {World} _.
Arguments Normal {World} _.
Arguments Abrupt {World} _ _.
Arguments compute {World} _ _ _.
Arguments settle {World} _ _ _.
Arguments entryOf {World} _.
Arguments afterFailure {World} _ _ _ _ _.
Arguments evaluateField {World} _ _ _.
Arguments forEach {World} _ _ _.
Arguments initialState {World} _ _.
Arguments evaluateComputed {World} _ _ _ _.
Arguments stateOf {World} _.
Arguments escaped {World} _.
Arguments handleSubmit {World} _ _ _ _ _ _.
Arguments Rejected {World} _.
Arguments Failed {World} _ _.
Arguments Posted {World} _ _.

End CreateEntityModal.

(* ================================================================== *)
(** ** A reference host for a subset of JavaScript

    [MiniJs.newFunction] is an instance of the host for the source texts
    [functionBody] generates when the formula is an expression built from
    integer literals, single-quoted strings without escapes, [null],
    [true], [false], identifiers, [+], [*], [||], parentheses, assignment
    to an identifier, the immediately invoked arrow function
    [(() => { throw e; })()], and [x.reverse()] for a constant [x] of
    the generated function that holds an array.  Function code made by
    [new Function] is not strict: assigning to an undeclared identifier
    creates a global.

    The global state is the list of data properties of the global object
    that hold modelled values; an identifier bound nowhere raises a
    ReferenceError.  Texts of error messages are those of V8.
    [Array.prototype.reverse] reverses the array in place and returns
    it; since arrays are given by their contents, the interpreter
    accepts [x.reverse()] only when the array of [x] is the one array in
    scope and in the global state, so that no other name can hold it.
    Everything else of the language is outside the subset: there the
    interpreter answers [None], and [newFunction] turns that into
    [outsideSubset]. *)

Module MiniJs.
Import JsString Js Host.

Definition World : Type := obj.

Inductive token : Type :=
| TIdent (x : string)
| TKeyword (w : string)
| TNum (n : N)
| TStr (s : string)
| TPunct (p : string).

Definition reservedWords : list string :=
  [ "break"; "case"; "catch"; "class"; "const"; "continue"; "debugger";
    "default"; "delete"; "do"; "else"; "enum"; "export"; "extends";
    "false"; "finally"; "for"; "function"; "if"; "import"; "in";
    "instanceof"; "let"; "new"; "null"; "return"; "super"; "switch";
    "this"; "throw"; "true"; "try"; "typeof"; "var"; "void"; "while";
    "with" ].

Definition memString (x : string) (l : list string) : bool :=
  existsb (String.eqb x) l.

Definition isIdentStart (c : ascii) : bool :=
  let n := nat_of_ascii c in
  ((Nat.leb 65 n && Nat.leb n 90) || (Nat.leb 97 n && Nat.leb n 122)
   || Nat.eqb n 95 || Nat.eqb n 36)%bool.

Definition isIdentPart (c : ascii) : bool :=
  (isIdentStart c || isDigit c)%bool.

Definition snoc (s : string) (c : ascii) : string :=
  s ++ String c EmptyString.

Inductive lexState : Type :=
| Idle
| InWord (acc : string)
| InNumber (acc : string)
| InString (acc : string)
| SeenBar
| SeenEquals.

Definition wordToken (w : string) : token :=
  if memString w reservedWords then TKeyword w else TIdent w.

(** A decimal integer literal; a leading zero followed by digits is the
    legacy octal form and is outside the subset. *)
Definition numberToken (digits : string) : option token :=
  match digits with
  | String c (String _ _) =>
      if Ascii.eqb c "0"%char then None
      else option_map TNum (digitsValue 0 digits)
  | _ => option_map TNum (digitsValue 0 digits)
  end.

(** The tokens completed when the state is left. *)
Definition flush (st : lexState) : option (list token) :=
  match st with
  | Idle => Some []
  | InWord acc => Some [wordToken acc]
  | InNumber acc => option_map (fun t => [t]) (numberToken acc)
  | InString _ => None
  | SeenBar => None
  | SeenEquals => Some [TPunct "="]
  end.

(** Reading [c] with no token under way: the next state and the token
    [c] alone makes, if any. *)
Definition start (c : ascii) : option (lexState * list token) :=
  if isWhiteSpace c then Some (Idle, [])
  else if isIdentStart c then Some (InWord (String c EmptyString), [])
  else if isDigit c then Some (InNumber (String c EmptyString), [])
  else if Ascii.eqb c "'"%char then Some (InString EmptyString, [])
  else if Ascii.eqb c "|"%char then Some (SeenBar, [])
  else if Ascii.eqb c "="%char then Some (SeenEquals, [])
  else if memString (String c EmptyString)
            ["("; ")"; "{"; "}"; "["; "]"; ";"; "+"; "*"; "."]
       then Some (Idle, [TPunct (String c EmptyString)])
  else None.

Fixpoint lex (st : lexState) (s : string) : option (list token) :=
  match s with
  | EmptyString => flush st
  | String c rest =>
      let restart (_ : unit) :=
        match flush st, start c with
        | Some done, Some (st', single) =>
            option_map (fun ts => done ++ single ++ ts) (lex st' rest)
        | _, _ => None
        end in
      match st with
      | Idle => restart tt
      | InWord acc =>
          if isIdentPart c then lex (InWord (snoc acc c)) rest else restart tt
      | InNumber acc =>
          if isDigit c then lex (InNumber (snoc acc c)) rest
          else if (isIdentStart c || Ascii.eqb c "."%char)%bool then None
          else restart tt
      | InString acc =>
          if Ascii.eqb c "'"%char
          then option_map (cons (TStr acc)) (lex Idle rest)
          else if (Ascii.eqb c "\"%char || isLineTerminator c)%bool then None
          else lex (InString (snoc acc c)) rest
      | SeenBar =>
          if Ascii.eqb c "|"%char
          then option_map (cons (TPunct "||")) (lex Idle rest)
          else None
      | SeenEquals =>
          if Ascii.eqb c ">"%char
          then option_map (cons (TPunct "=>")) (lex Idle rest)
          else if Ascii.eqb c "="%char then None
          else restart tt
      end
  end.

Inductive expr : Type :=
| ENum (n : N)
| EStr (s : string)
| ENull
| EBool (b : bool)
| EIdent (x : string)
| EAdd (a b : expr)
| EMul (a b : expr)
| EOr (a b : expr)
| EAssign (x : string) (e : expr)
| EThrow (e : expr)
| EReverse (x : string).

Definition isPunct (p : string) (t : token) : bool :=
  match t with TPunct q => String.eqb p q | _ => false end.

Definition isKeyword (w : string) (t : token) : bool :=
  match t with TKeyword v => String.eqb w v | _ => false end.

(** [expect [t1; ...; tn] ts]: [ts] without the punctuators and keywords
    [t1 ... tn] it has to start with. *)
Fixpoint expect (wanted : list token) (ts : list token) : option (list token) :=
  match wanted, ts with
  | [], _ => Some ts
  | TPunct p :: wanted', t :: ts' =>
      if isPunct p t then expect wanted' ts' else None
  | TKeyword w :: wanted', t :: ts' =>
      if isKeyword w t then expect wanted' ts' else None
  | _, _ => None
  end.

(** Recursive descent, lowest precedence first: assignment, [||], [+],
    [*], primary.  The fuel bounds the depth of the descent. *)
Fixpoint parseAssignment (fuel : nat) (ts : list token)
  : option (expr * list token) :=
  match fuel with
  | O => None
  | S fuel' =>
      match parseOr fuel' ts with
      | Some (lhs, TPunct p :: rest) =>
          if String.eqb p "=" then
            match lhs with
            | EIdent x =>
                match parseAssignment fuel' rest with
                | Some (rhs, rest') => Some (EAssign x rhs, rest')
                | None => None
                end
            | _ => None
            end
          else Some (lhs, TPunct p :: rest)
      | r => r
      end
  end

with parseOr (fuel : nat) (ts : list token) : option (expr * list token) :=
  match fuel with
  | O => None
  | S fuel' =>
      match parseAdditive fuel' ts with
      | Some (lhs, rest) => parseOrRest fuel' lhs rest
      | None => None
      end
  end

with parseOrRest (fuel : nat) (lhs : expr) (ts : list token)
  : option (expr * list token) :=
  match fuel with
  | O => None
  | S fuel' =>
      match ts with
      | TPunct p :: rest =>
          if String.eqb p "||" then
            match parseAdditive fuel' rest with
            | Some (rhs, rest') => parseOrRest fuel' (EOr lhs rhs) rest'
            | None => None
            end
          else Some (lhs, ts)
      | _ => Some (lhs, ts)
      end
  end

with parseAdditive (fuel : nat) (ts : list token)
  : option (expr * list token) :=
  match fuel with
  | O => None
  | S fuel' =>
      match parseMultiplicative fuel' ts with
      | Some (lhs, rest) => parseAdditiveRest fuel' lhs rest
      | None => None
      end
  end

with parseAdditiveRest (fuel : nat) (lhs : expr) (ts : list token)
  : option (expr * list token) :=
  match fuel with
  | O => None
  | S fuel' =>
      match ts with
      | TPunct p :: rest =>
          if String.eqb p "+" then
            match parseMultiplicative fuel' rest with
            | Some (rhs, rest') => parseAdditiveRest fuel' (EAdd lhs rhs) rest'
            | None => None
            end
          else Some (lhs, ts)
      | _ => Some (lhs, ts)
      end
  end

with parseMultiplicative (fuel : nat) (ts : list token)
  : option (expr * list token) :=
  match fuel with
  | O => None
  | S fuel' =>
      match parsePrimary fuel' ts with
      | Some (lhs, rest) => parseMultiplicativeRest fuel' lhs rest
      | None => None
      end
  end

with parseMultiplicativeRest (fuel : nat) (lhs : expr) (ts : list token)
  : option (expr * list token) :=
  match fuel with
  | O => None
  | S fuel' =>
      match ts with
      | TPunct p :: rest =>
          if String.eqb p "*" then
            match parsePrimary fuel' rest with
            | Some (rhs, rest') =>
                parseMultiplicativeRest fuel' (EMul lhs rhs) rest'
            | None => None
            end
          else Some (lhs, ts)
      | _ => Some (lhs, ts)
      end
  end

with parsePrimary (fuel : nat) (ts : list token)
  : option (expr * list token) :=
  match fuel with
  | O => None
  | S fuel' =>
      match ts with
      | TNum n :: rest => Some (ENum n, rest)
      | TStr s :: rest => Some (EStr s, rest)
      | TIdent x :: TPunct p :: rest =>
          if String.eqb p "." then
            match rest with
            | TIdent method :: rest' =>
                if String.eqb method "reverse" then
                  match expect [TPunct "("; TPunct ")"] rest' with
                  | Some after => Some (EReverse x, after)
                  | None => None
                  end
                else None
            | _ => None
            end
          else Some (EIdent x, TPunct p :: rest)
      | TIdent x :: rest => Some (EIdent x, rest)
      | TKeyword w :: rest =>
          if String.eqb w "null" then Some (ENull, rest)
          else if String.eqb w "true" then Some (EBool true, rest)
          else if String.eqb w "false" then Some (EBool false, rest)
          else None
      | TPunct p :: rest =>
          if String.eqb p "(" then
            match expect [TPunct "("; TPunct ")"; TPunct "=>"; TPunct "{";
                          TKeyword "throw"] rest with
            | Some afterThrow =>
                match parseAssignment fuel' afterThrow with
                | Some (e, rest') =>
                    let rest'' :=
                      match expect [TPunct ";"] rest' with
                      | Some r => r
                      | None => rest'
                      end in
                    match expect [TPunct "}"; TPunct ")"; TPunct "(";
                                  TPunct ")"] rest'' with
                    | Some after => Some (EThrow e, after)
                    | None => None
                    end
                | None => None
                end
            | None =>
                match parseAssignment fuel' rest with
                | Some (e, rest') =>
                    match expect [TPunct ")"] rest' with
                    | Some after => Some (e, after)
                    | None => None
                    end
                | None => None
                end
            end
          else None
      | [] => None
      end
  end.

(** [const x = context['k'];] *)
Definition parseDeclaration (ts : list token)
  : option ((string * string) * list token) :=
  match ts with
  | TKeyword c :: TIdent x :: TPunct e :: TIdent ctx :: TPunct l
      :: TStr k :: TPunct r :: TPunct semi :: rest =>
      if (String.eqb c "const" && String.eqb e "=" && String.eqb ctx "context"
          && String.eqb l "[" && String.eqb r "]" && String.eqb semi ";")%bool
      then Some ((x, k), rest)
      else None
  | _ => None
  end.

Fixpoint parseDeclarations (fuel : nat) (ts : list token)
  : option (list (string * string) * list token) :=
  match fuel with
  | O => None
  | S fuel' =>
      match ts with
      | TKeyword w :: _ =>
          if String.eqb w "const" then
            match parseDeclaration ts with
            | Some (d, rest) =>
                match parseDeclarations fuel' rest with
                | Some (ds, rest') => Some (d :: ds, rest')
                | None => None
                end
            | None => None
            end
          else Some ([], ts)
      | _ => Some ([], ts)
      end
  end.

Fixpoint distinct (l : list string) : bool :=
  match l with
  | [] => true
  | x :: rest => (negb (memString x rest) && distinct rest)%bool
  end.

(** The whole text of a generated function body: the declarations and
    the returned expression ([None]: a bare [return;]). *)
Definition parseBody (ts : list token)
  : option (list (string * string) * option expr) :=
  let fuel := S (List.length ts) in
  match expect [TKeyword "return"; TPunct "("; TKeyword "function";
                TPunct "("; TPunct ")"; TPunct "{"] ts with
  | Some ts1 =>
      match parseDeclarations fuel ts1 with
      | Some (decls, ts2) =>
          if distinct (map fst decls) then
            match expect [TKeyword "return"] ts2 with
            | Some ts3 =>
                let closing := [TPunct ";"; TPunct "}"; TPunct ")"; TPunct "(";
                                TPunct ")"; TPunct ";"] in
                match expect closing ts3 with
                | Some [] => Some (decls, None)
                | _ =>
                    match parseAssignment (8 * fuel) ts3 with
                    | Some (e, ts4) =>
                        match expect closing ts4 with
                        | Some [] => Some (decls, Some e)
                        | _ => None
                        end
                    | None => None
                    end
                end
            | None => None
            end
          else None
      | None => None
      end
  | None => None
  end.

(** *** Conversions of primitive values *)

Definition safeBound : Z := 9007199254740992.  (* 2^53 *)

Definition isSafe (z : Z) : bool :=
  ((- safeBound <=? z) && (z <=? safeBound))%Z.

(** [Number::toString] on the numbers of the model *)
Definition numberToString (n : number) : option string :=
  match n with
  | NNaN => Some "NaN"
  | NInt z =>
      if isSafe z then Some (NilZero.string_of_int (Z.to_int z)) else None
  end.

(** [ToPrimitive]: an array becomes the text of its [join(',')]. *)
Definition toPrimitive (v : value) : value :=
  match v with
  | VArr items => VStr (join "," items)
  | _ => v
  end.

(** [ToString] *)
Definition toString (v : value) : option string :=
  match toPrimitive v with
  | VUndefined => Some "undefined"
  | VNull => Some "null"
  | VBool true => Some "true"
  | VBool false => Some "false"
  | VNum n => numberToString n
  | VStr s => Some s
  | VArr _ => None
  end.

(** [StringToNumber], where it can be decided without reading a
    fraction, an exponent, a radix prefix or [Infinity]: white space
    only gives 0; digits give their value; a text that starts with none
    of a sign, a digit, a dot or [I] is no numeric literal and gives
    NaN. *)
Definition stringToNumber (s : string) : option number :=
  match trim s with
  | EmptyString => Some (NInt 0)
  | String c rest =>
      if isDigit c then
        match digitsValue 0 (String c rest) with
        | Some n => if isSafe (Z.of_N n) then Some (NInt (Z.of_N n)) else None
        | None => None
        end
      else if memString (String c EmptyString) ["+"; "-"; "."; "I"] then None
      else Some NNaN
  end.

(** [ToNumber] *)
Definition toNumber (v : value) : option number :=
  match toPrimitive v with
  | VUndefined => Some NNaN
  | VNull => Some (NInt 0)
  | VBool true => Some (NInt 1)
  | VBool false => Some (NInt 0)
  | VNum (NInt z) => if isSafe z then Some (NInt z) else None
  | VNum NNaN => Some NNaN
  | VStr s => stringToNumber s
  | VArr _ => None
  end.

(** [ToBoolean] *)
Definition toBoolean (v : value) : bool :=
  match v with
  | VUndefined | VNull => false
  | VBool b => b
  | VNum (NInt z) => negb (z =? 0)%Z
  | VNum NNaN => false
  | VStr s => negb (isEmpty s)
  | VArr _ => true
  end.

Definition arith (op : Z -> Z -> Z) (a b : number) : option number :=
  match a, b with
  | NInt x, NInt y => if isSafe (op x y) then Some (NInt (op x y)) else None
  | _, _ => Some NNaN
  end.

Definition isString (v : value) : bool :=
  match v with VStr _ => true | _ => false end.

(** The operator [+] *)
Definition add (a b : value) : option value :=
  let pa := toPrimitive a in
  let pb := toPrimitive b in
  if (isString pa || isString pb)%bool then
    match toString pa, toString pb with
    | Some sa, Some sb => Some (VStr (sa ++ sb))
    | _, _ => None
    end
  else
    match toNumber pa, toNumber pb with
    | Some na, Some nb => option_map VNum (arith Z.add na nb)
    | _, _ => None
    end.

(** The operator [*] *)
Definition mul (a b : value) : option value :=
  match toNumber a, toNumber b with
  | Some na, Some nb => option_map VNum (arith Z.mul na nb)
  | _, _ => None
  end.

(** *** Evaluation *)

(** A value or a thrown value, with the constants of the generated
    function (whose arrays the expression may have changed) and the
    global state. *)
Inductive result : Type :=
| Val (v : value) (scope : obj) (w : World)
| Exc (e : thrown) (scope : obj) (w : World)
| Unsupported.

(** Names the generated code or the engine binds to values that are
    not modelled. *)
Definition unmodelledNames : list string :=
  ["context"; "arguments"; "undefined"; "NaN"; "Infinity"].

Definition applyBinary (op : value -> value -> option value)
  (scope : obj) (w : World) (a b : value) : result :=
  match op a b with
  | Some v => Val v scope w
  | None => Unsupported
  end.

Definition countArrays (o : obj) : nat :=
  List.length (filter (fun kv => isArray (snd kv)) o).

(** The array of the constant [x], changed in place. *)
Definition rebind (scope : obj) (x : string) (v : value) : obj :=
  map (fun kv => if String.eqb (fst kv) x then (x, v) else kv) scope.

(** [scope]: the [const] bindings of the generated function. *)
Fixpoint eval (scope : obj) (e : expr) (w : World) : result :=
  match e with
  | ENum n =>
      if isSafe (Z.of_N n) then Val (VNum (NInt (Z.of_N n))) scope w
      else Unsupported
  | EStr s => Val (VStr s) scope w
  | ENull => Val VNull scope w
  | EBool b => Val (VBool b) scope w
  | EIdent x =>
      if hasProp scope x then Val (getProp scope x) scope w
      else if memString x unmodelledNames then Unsupported
      else if hasProp w x then Val (getProp w x) scope w
      else Exc (ThrownError "ReferenceError" (x ++ " is not defined")) scope w
  | EAdd a b =>
      match eval scope a w with
      | Val va scope1 w1 =>
          match eval scope1 b w1 with
          | Val vb scope2 w2 => applyBinary add scope2 w2 va vb
          | r => r
          end
      | r => r
      end
  | EMul a b =>
      match eval scope a w with
      | Val va scope1 w1 =>
          match eval scope1 b w1 with
          | Val vb scope2 w2 => applyBinary mul scope2 w2 va vb
          | r => r
          end
      | r => r
      end
  | EOr a b =>
      match eval scope a w with
      | Val va scope1 w1 =>
          if toBoolean va then Val va scope1 w1 else eval scope1 b w1
      | r => r
      end
  | EAssign x rhs =>
      match eval scope rhs w with
      | Val v scope1 w1 =>
          if hasProp scope x
          then Exc (ThrownError "TypeError" "Assignment to constant variable.")
                   scope1 w1
          else if memString x unmodelledNames then Unsupported
          else Val v scope1 (setProp w1 x v)
      | r => r
      end
  | EThrow a =>
      match eval scope a w with
      | Val v scope1 w1 => Exc (ThrownValue v) scope1 w1
      | r => r
      end
  | EReverse x =>
      match getProp scope x with
      | VArr items =>
          if (hasProp scope x && Nat.eqb (countArrays scope) 1
              && Nat.eqb (countArrays w) 0)%bool
          then Val (VArr (rev items)) (rebind scope x (VArr (rev items))) w
          else Unsupported
      | _ => Unsupported
      end
  end.

(** The [const] declarations, each reading its property of the
    argument. *)
Definition bindDeclarations (decls : list (string * string)) (context : obj)
  : obj :=
  map (fun d => (fst d, getProp context (snd d))) decls.

(** What the constants hold at the end, under the names of the
    properties of the argument they were read from. *)
Definition readBack (decls : list (string * string)) (scope : obj) : obj :=
  map (fun d => (snd d, getProp scope (fst d))) decls.

(** A [const] named [context] hides the parameter in the whole inner
    function, so the first declaration reads it before it is
    initialised. *)
Definition run (decls : list (string * string)) (body : option expr)
  (context : obj) (w : World) : result :=
  let scope := bindDeclarations decls context in
  if memString "context" (map fst decls)
  then Exc (ThrownError "ReferenceError"
              "Cannot access 'context' before initialization") scope w
  else
    match body with
    | None => Val VUndefined scope w
    | Some e => eval scope e w
    end.

Definition interpret (parameter body : string) (argument : obj) (w : World)
  : option (outcome * obj * World) :=
  if String.eqb parameter "context" then
    match lex Idle body with
    | Some ts =>
        match parseBody ts with
        | Some (decls, e) =>
            match run decls e argument w with
            | Val v scope w' => Some (Returned v, readBack decls scope, w')
            | Exc t scope w' => Some (Threw t, readBack decls scope, w')
            | Unsupported => None
            end
        | None => None
        end
    | None => None
    end
  else None.

Definition outsideSubset : thrown :=
  ThrownError "Error" "outside the modelled subset".

Definition newFunction : host World :=
  fun parameter body argument w =>
    match interpret parameter body argument w with
    | Some r => r
    | None => (Threw outsideSubset, [], w)
    end.


End MiniJs.

(* ================================================================== *)
(** ** Observing the host calls of a pass *)

Module Recording.
Import JsString Js Host.

(** The same host, with the global state extended by the list of the
    source texts it was asked to run, oldest first. *)
Definition recording {World : Type} (newFunction : host World)
  : host (World * list string) :=
  fun parameter body argument wl =>
    let (answer, w') := newFunction parameter body argument (fst wl) in
    (answer, (w', snd wl ++ [body])).

Definition calls {World : Type} (wl : World * list string) : list string :=
  snd wl.

End Recording.

(* ================================================================== *)
(** ** components/CreateTemplateModal.js *)

Module CreateTemplateModal.
Import JsString Js.

(** A member of the component's [fields] state: made by [addField] with
    [options: ''], edited by [updateField]; [formula] exists once the
    formula editor has saved one. *)
Record fieldDraft : Type := {
  name : string;
  type : string;
  options : string;
  formula : option string
}.

(** [{ ...target, ...source }] on an object under construction *)
Definition spread (target source : obj) : obj :=
  fold_left (fun o kv => setProp o (fst kv) (snd kv)) source target.

Definition isSelect (t : string) : bool :=
  (String.eqb t "select" || String.eqb t "multiselect")%bool.

(** The callback of [fields.map] (lines 64-76). *)
Definition cleanField (field : fieldDraft) : obj :=
  let base := setProp (setProp [] "name" (VStr (name field)))
                      "type" (VStr (type field)) in
  let withOptions :=
    spread base
      (if isSelect (type field)
       then [("options", VArr (map trim (split_comma (options field))))]
       else []) in
  spread withOptions
    (if String.eqb (type field) "computed"
     then [("formula", match formula field with
                       | Some f => VStr f
                       | None => VUndefined
                       end)]
     else []).

Definition cleanFields (fields : list fieldDraft) : list obj :=
  map cleanField fields.

(** The properties [JSON.stringify] writes for an object: those whose
    value is not [undefined]. *)
Definition serialized (o : obj) : obj :=
  filter (fun kv => match snd kv with VUndefined => false | _ => true end) o.

End CreateTemplateModal.

(* ================================================================== *)
(** ** The statements of the specification, for comparison *)

Module Stated.
Import JsString Js Host CreateEntityModal Recording.




(** Evaluation is order independent for a host: permuting the schema
    changes no entry of the result. *)
Definition orderIndependent {World : Type}
  (newFunction : host World) : Prop :=
  forall schema schema' formData w k,
    Permutation schema schema' ->
    getProp (finalData (stateOf (evaluateComputed newFunction schema formData w))) k
    = getProp (finalData (stateOf (evaluateComputed newFunction schema' formData w))) k.


(** The pass never lets an exception out, and every computed field that
    has a formula ends with an entry. *)
Definition neverThrows {World : Type}
  (newFunction : host World) : Prop :=
  forall schema formData w,
    escaped (evaluateComputed newFunction schema formData w) = None
    /\ forall f, In f schema -> isEvaluated f = true ->
         hasProp (finalData (stateOf
            (evaluateComputed newFunction schema formData w))) (name f) = true.






(** The invariant of the data model on the schema entries that template
    creation sends: a [formula] exactly on the computed fields, and
    [options] on select and multiselect fields only. *)
Definition formulaIffComputed : Prop :=
  forall fields entry,
    In entry (map CreateTemplateModal.serialized
                  (CreateTemplateModal.cleanFields fields)) ->
    (hasProp entry "formula" = true <-> getProp entry "type" = VStr "computed")
    /\ (hasProp entry "options" = true ->
        getProp entry "type" = VStr "select"
        \/ getProp entry "type" = VStr "multiselect").

End Stated.

(* ================================================================== *)
(** ** Schemas used in the examples *)

Module Examples.
Import JsString Js Host CreateEntityModal.

Definition computed (fieldName formulaSource : string) : FieldSchema :=
  {| name := fieldName; type := "computed"; options := None;
     formula := Some formulaSource |}.

Definition plain (fieldName fieldType : string) : FieldSchema :=
  {| name := fieldName; type := fieldType; options := None;
     formula := None |}.


(** [x = c + 1] with [c] bound nowhere, and [z = x * 2] *)
Definition upstreamSchema : list FieldSchema :=
  [computed "x" "c + 1"; computed "z" "x * 2"].

(** [a = 1] and [b = a + 1], in both orders *)
Definition orderedSchema : list FieldSchema :=
  [computed "a" "1"; computed "b" "a + 1"].
Definition reorderedSchema : list FieldSchema :=
  [computed "b" "a + 1"; computed "a" "1"].

(** A formula that throws [null] *)
Definition throwingSchema : list FieldSchema :=
  [computed "a" "(() => { throw null; })()"; computed "b" "1"].




(** A failing field, then an independent one *)
Definition independentSchema : list FieldSchema :=
  [computed "a" "c"; computed "b" "n + 1"].


(** The same, with a formula that fails after it reversed the array *)
Definition reversingFailureSchema : list FieldSchema :=
  [plain "tags" "multiselect"; computed "a" "tags.reverse() + c"].


(** No computed field *)
Definition plainSchema : list FieldSchema :=
  [plain "title" "string"; plain "level" "number"].

(** A plain field around a computed one, in both orders *)
Definition mixedSchema : list FieldSchema :=
  [plain "n" "number"; computed "double" "n + n"].
Definition mixedSchemaMoved : list FieldSchema :=
  [computed "double" "n + n"; plain "n" "number"].

End Examples.

(* ================================================================== *)
(** ** Objects in enumeration order, and texts with comments *)

Module Shape.
Import JsString Js.

(** The list is one [Object.keys] can enumerate: no name twice, and no
    name after one it has to precede. *)
Fixpoint inOrder (o : obj) : bool :=
  match o with
  | [] => true
  | (k, _) :: rest =>
      (forallb (fun kv => negb (String.eqb (fst kv) k)
                          && negb (precedes (fst kv) k))%bool rest
       && inOrder rest)%bool
  end.

Definition startsWithSlash (s : string) : bool :=
  match s with
  | String c _ => Ascii.eqb c "/"%char
  | EmptyString => false
  end.

(** Does [//] occur in [s]? *)
Fixpoint hasLineComment (s : string) : bool :=
  match s with
  | EmptyString => false
  | String c rest =>
      ((Ascii.eqb c "/"%char && startsWithSlash rest) || hasLineComment rest)%bool
  end.

Definition startsWithStar (s : string) : bool :=
  match s with
  | String c _ => Ascii.eqb c "*"%char
  | EmptyString => false
  end.

(** Does [/*] occur in [s]? *)
Fixpoint hasBlockStart (s : string) : bool :=
  match s with
  | EmptyString => false
  | String c rest =>
      ((Ascii.eqb c "/"%char && startsWithStar rest) || hasBlockStart rest)%bool
  end.

(** Does a line feed occur in [s]? *)
Fixpoint hasLineFeed (s : string) : bool :=
  match s with
  | EmptyString => false
  | String c rest => (isLF c || hasLineFeed rest)%bool
  end.

(** White space only, or nothing: [!s.trim()] *)
Definition isBlank (s : string) : bool := isEmpty (trim s).

(** [$] under the [m] flag matches at the start of [s]: the end of the
    input, or a line terminator next. *)
Definition atLineEnd (s : string) : bool :=
  match s with
  | EmptyString => true
  | String c _ => isLineTerminator c
  end.

End Shape.

(* ================================================================== *)
(** ** components/CreateEntityModal.jsx: the form *)

Module CreateEntityForm.
Import JsString Js.

(** [handleChange] (lines 12-14): [{ ...prev, [field]: value }] *)
Definition handleChange (formData : obj) (field : string) (value : value)
  : obj :=
  setProp formData field value.

(** [formData[fieldKey] || ''] (line 136), for a field name that
    [Object.prototype] does not define *)
Definition fieldValue (formData : obj) (fieldKey : string) : value :=
  let v := getProp formData fieldKey in
  if MiniJs.toBoolean v then v else VStr EmptyString.

(** [Array.isArray(value) && value.includes(opt)] (line 202) *)
Definition isChecked (value : value) (opt : string) : bool :=
  match value with
  | VArr items => existsb (String.eqb opt) items
  | _ => false
  end.

(** [Array.isArray(value) ? [...value] : []] (line 204) *)
Definition currentOptions (value : value) : list string :=
  match value with
  | VArr items => items
  | _ => []
  end.

(** [idx = current.indexOf(opt); if (idx > -1) current.splice(idx, 1)]
    (lines 207-208) *)
Fixpoint removeFirst (opt : string) (current : list string) : list string :=
  match current with
  | [] => []
  | x :: rest => if String.eqb x opt then rest else x :: removeFirst opt rest
  end.

(** The [onChange] of the checkbox of one option of a multiselect field
    (lines 203-211); [checked] is [e.target.checked]. *)
Definition toggleOption (formData : obj) (fieldKey opt : string)
  (checked : bool) : obj :=
  let current := currentOptions (fieldValue formData fieldKey) in
  handleChange formData fieldKey
    (VArr (if checked then current ++ [opt] else removeFirst opt current)).

End CreateEntityForm.

(* ================================================================== *)
(** ** The field lists of CreateTemplateModal.js and EditTemplateModal.js

    Both modals keep [fields], an array of objects, edit it with the
    same [addField], [updateField] and [removeField], and clean it with
    the same callback on submit.  In the edit modal the array starts as
    the [template.schema] the server returned. *)

Module TemplateFields.
Import JsString Js Host.

(** [{ name: '', type: 'string', options: '' }] *)
Definition newField : obj :=
  setProp (setProp (setProp [] "name" (VStr EmptyString))
                   "type" (VStr "string"))
          "options" (VStr EmptyString).

(** [addField] *)
Definition addField (fields : list obj) : list obj := fields ++ [newField].

Fixpoint updateAt (fields : list obj) (index : nat) (key : string)
  (value : value) : option (list obj) :=
  match fields, index with
  | [], _ => None
  | field :: rest, O => Some (setProp field key value :: rest)
  | field :: rest, S i => option_map (cons field) (updateAt rest i key value)
  end.

(** [updateField]: [updated[index][key] = value]; past the end of the
    array the assignment throws (text as in V8). *)
Definition updateField (fields : list obj) (index : nat) (key : string)
  (value : value) : list obj + thrown :=
  match updateAt fields index key value with
  | Some updated => inl updated
  | None =>
      inr (ThrownError "TypeError"
             ("Cannot set properties of undefined (setting '" ++ key ++ "')"))
  end.

(** [removeField]: [fields.filter((_, i) => i !== index)] *)
Fixpoint removeField (fields : list obj) (index : nat) : list obj :=
  match fields, index with
  | [], _ => []
  | _ :: rest, O => rest
  | field :: rest, S i => field :: removeField rest i
  end.

(** [options.split(',').map(opt => opt.trim())]; only a string has
    [split]. *)
Definition splitOptions (options : value) : list string + thrown :=
  match options with
  | VStr s => inl (map trim (split_comma s))
  | VUndefined =>
      inr (ThrownError "TypeError"
             "Cannot read properties of undefined (reading 'split')")
  | VNull =>
      inr (ThrownError "TypeError"
             "Cannot read properties of null (reading 'split')")
  | _ => inr (ThrownError "TypeError" "options.split is not a function")
  end.

(** [type === 'select' || type === 'multiselect'] *)
Definition isSelectType (type : value) : bool :=
  match type with
  | VStr t => CreateTemplateModal.isSelect t
  | _ => false
  end.

(** [type === 'computed'] *)
Definition isComputedType (type : value) : bool :=
  match type with
  | VStr t => String.eqb t "computed"
  | _ => false
  end.

(** The callback of [fields.map] in [handleSubmit]. *)
Definition cleanField (field : obj) : obj + thrown :=
  let name := getProp field "name" in
  let type := getProp field "type" in
  let options := getProp field "options" in
  let formula := getProp field "formula" in
  let base := setProp (setProp [] "name" name) "type" type in
  let withOptions :=
    if isSelectType type then
      match splitOptions options with
      | inl pieces =>
          inl (CreateTemplateModal.spread base [("options", VArr pieces)])
      | inr e => inr e
      end
    else inl (CreateTemplateModal.spread base []) in
  match withOptions with
  | inl entry =>
      inl (CreateTemplateModal.spread entry
             (if isComputedType type then [("formula", formula)] else []))
  | inr e => inr e
  end.

(** [fields.map(...)]: the first callback that throws ends the map. *)
Fixpoint cleanFields (fields : list obj) : list obj + thrown :=
  match fields with
  | [] => inl []
  | field :: rest =>
      match cleanField field with
      | inr e => inr e
      | inl entry =>
          match cleanFields rest with
          | inl entries => inl (entry :: entries)
          | inr e => inr e
          end
      end
  end.

Inductive submission : Type :=
| Rejected (message : string)
| Failed (e : thrown)
| Sent (templateName : string) (schema : list obj).

(** [handleSubmit] up to the request it sends; the cleaning is outside
    its [try]. *)
Definition handleSubmit (templateName : string) (fields : list obj)
  : submission :=
  if isEmpty (trim templateName) then Rejected "Template name is required"
  else
    match cleanFields fields with
    | inl schema => Sent templateName schema
    | inr e => Failed e
    end.

(** The object the create modal holds for a draft: made by [addField],
    then edited by [updateField]; [formula] exists once one was saved. *)
Definition draftObject (d : CreateTemplateModal.fieldDraft) : obj :=
  let o := setProp (setProp (setProp newField
                      "name" (VStr (CreateTemplateModal.name d)))
                      "type" (VStr (CreateTemplateModal.type d)))
                      "options" (VStr (CreateTemplateModal.options d)) in
  match CreateTemplateModal.formula d with
  | Some f => setProp o "formula" (VStr f)
  | None => o
  end.

(** What the edit modal starts from: the entries as the server stored
    and returned them. *)
Definition loadSchema (schema : list obj) : list obj :=
  map CreateTemplateModal.serialized schema.

End TemplateFields.

(* ================================================================== *)
(** ** components/CreateLocationTemplateModal.jsx *)

Module CreateLocationTemplateModal.
Import JsString Js Host Shape.

(** A member of [fields]: [required] and [options] may be missing. *)
Record locationField : Type := {
  name : string;
  type : string;
  required : option bool;
  options : option (list string)
}.

Record schemaEntry : Type := {
  entry_name : string;
  entry_type : string;
  entry_required : bool;
  entry_options : option (list string)
}.

Record templateData : Type := {
  template_name : string;
  description : string;
  schema : list schemaEntry;
  icon_url : string
}.

Definition decimal (n : nat) : string :=
  NilZero.string_of_uint (Nat.to_uint n).

(** [!field.options || field.options.length === 0
     || field.options.every(opt => !opt.trim())] for a select field *)
Definition lacksOptions (field : locationField) : bool :=
  (String.eqb (type field) "select"
   && match options field with
      | None => true
      | Some opts => (Nat.eqb (List.length opts) 0 || forallb isBlank opts)
      end)%bool.

(** The validation loop (lines 53-64), [i] counting from 0: the text
    of the alert of the first field that fails, if one does. *)
Fixpoint validate (i : nat) (fields : list locationField) : option string :=
  match fields with
  | [] => None
  | field :: rest =>
      if isBlank (name field)
      then Some ("Field " ++ decimal (i + 1) ++ " needs a name")%string
      else if lacksOptions field
      then Some ("Select field " ++ DQUOTE ++ name field ++ DQUOTE
                   ++ " needs at least one option")%string
      else validate (S i) rest
  end.

(** The callback of [fields.map] (lines 69-74); [filter] needs an
    array. *)
Definition toEntry (field : locationField) : schemaEntry + thrown :=
  let required := match required field with Some b => b | None => false end in
  if String.eqb (type field) "select" then
    match options field with
    | Some opts =>
        inl {| entry_name := trim (name field);
               entry_type := type field;
               entry_required := required;
               entry_options := Some (filter (fun opt => negb (isBlank opt)) opts) |}
    | None =>
        inr (ThrownError "TypeError"
               "Cannot read properties of undefined (reading 'filter')")
    end
  else
    inl {| entry_name := trim (name field);
           entry_type := type field;
           entry_required := required;
           entry_options := None |}.

Fixpoint toEntries (fields : list locationField)
  : list schemaEntry + thrown :=
  match fields with
  | [] => inl []
  | field :: rest =>
      match toEntry field with
      | inr e => inr e
      | inl entry =>
          match toEntries rest with
          | inl entries => inl (entry :: entries)
          | inr e => inr e
          end
      end
  end.

(** A field passes the two checks of the validation loop. *)
Definition fieldOk (field : locationField) : bool :=
  (negb (isBlank (name field)) && negb (lacksOptions field))%bool.

(** What the validation is there to ensure of a schema entry. *)
Definition entryValid (entry : schemaEntry) : Prop :=
  entry_name entry <> EmptyString
  /\ trim (entry_name entry) = entry_name entry
  /\ (entry_type entry = "select" ->
      exists opts, entry_options entry = Some opts
                   /\ opts <> []
                   /\ Forall (fun opt => isBlank opt = false) opts)
  /\ (entry_type entry <> "select" -> entry_options entry = None).

Inductive submission : Type :=
| Alerted (message : string)
| Failed (e : thrown)
| Created (data : templateData).

(** [handleSubmit] (lines 47-81); [iconFile] is the object URL of the
    chosen file, if a file was chosen. *)
Definition handleSubmit (templateName templateDescription : string)
  (iconFile : option string) (fields : list locationField) : submission :=
  if isBlank templateName then Alerted "Please enter a template name"
  else
    match validate 0 fields with
    | Some message => Alerted message
    | None =>
        match toEntries fields with
        | inl entries =>
            Created {| template_name := trim templateName;
                       description := trim templateDescription;
                       schema := entries;
                       icon_url := match iconFile with
                                   | Some url => url
                                   | None => EmptyString
                                   end |}
        | inr e => Failed e
        end
    end.

End CreateLocationTemplateModal.

(* ================================================================== *)
(** ** pages/ProjectPage.jsx: how an entity's data is shown *)

Module EntityDisplay.
Import JsString Js CreateEntityModal.

(** What [JSON.stringify] and [JSON.parse] make of a value on the way
    to the server and back: NaN becomes [null]. *)
Definition jsonValue (v : value) : value :=
  match v with
  | VNum NNaN => VNull
  | _ => v
  end.

(** The data object as stored and returned: properties holding
    [undefined] are left out. *)
Definition stored (data : obj) : obj :=
  map (fun kv => (fst kv, jsonValue (snd kv)))
      (CreateTemplateModal.serialized data).

Inductive content : Type :=
| Image (src : string)
| Text (text : string).

(** [selectedTemplate.schema.find(f => f.name === key)] (line 383) *)
Definition findField (schema : list FieldSchema) (key : string)
  : option FieldSchema :=
  find (fun f => String.eqb (name f) key) schema.

(** [fieldDef?.type === t] *)
Definition hasType (fieldDef : option FieldSchema) (t : string) : bool :=
  match fieldDef with
  | Some f => String.eqb (type f) t
  | None => false
  end.

(** Lines 388-398; [None] for a number whose text is not modelled. *)
Definition showValue (fieldDef : option FieldSchema) (v : value)
  : option content :=
  match v with
  | VStr s => Some (if hasType fieldDef "image" then Image s else Text s)
  | VNull | VUndefined => Some (Text "null")
  | VArr items => Some (Text (join ", " items))
  | _ => option_map Text (MiniJs.toString v)
  end.

(** The names [Object.prototype] defines: [name in data] holds for them
    whatever the data. *)
Definition inheritedNames : list string :=
  [ "constructor"; "hasOwnProperty"; "isPrototypeOf";
    "propertyIsEnumerable"; "toLocaleString"; "toString"; "valueOf";
    "__defineGetter__"; "__defineSetter__"; "__lookupGetter__";
    "__lookupSetter__"; "__proto__" ].

(** [field.name in entity.data] *)
Definition inData (data : obj) (key : string) : bool :=
  (hasProp data key || MiniJs.memString key inheritedNames)%bool.

(** The fields shown as "Not computed" (lines 414-416), for an entity
    that has data. *)
Definition notComputed (schema : list FieldSchema) (data : obj)
  : list FieldSchema :=
  filter (fun f => negb (inData data (name f)))
         (filter (fun f => String.eqb (type f) "computed") schema).

(** One line of the entity's data (lines 382-411): the content shown
    for [key], and whether it carries the computed badge. *)
Definition showEntry (schema : list FieldSchema) (key : string) (v : value)
  : option content * bool :=
  let fieldDef := findField schema key in
  (showValue fieldDef v, hasType fieldDef "computed").

End EntityDisplay.

(* ================================================================== *)
(** * Properties *)

Import JsString Js Host CreateEntityModal Recording Examples.

(** ** Objects *)

Lemma getProp_setProp_same (o : obj) (k : string) (v : value) :
  getProp (setProp o k v) k = v.
Proof.
  induction o as [|[k' v'] o IH]; simpl.
  - now rewrite String.eqb_refl.
  - destruct (String.eqb k k') eqn:E; simpl.
    + now rewrite String.eqb_refl.
    + destruct (precedes k k'); simpl.
      * now rewrite String.eqb_refl.
      * now rewrite E.
Qed.

Lemma getProp_setProp_other (o : obj) (k k2 : string) (v : value) :
  k2 <> k -> getProp (setProp o k v) k2 = getProp o k2.
Proof.
  intros Hne. apply String.eqb_neq in Hne.
  induction o as [|[k' v'] o IH]; simpl.
  - now rewrite Hne.
  - destruct (String.eqb k k') eqn:E; simpl.
    + apply String.eqb_eq in E. subst k'. now rewrite Hne.
    + destruct (precedes k k'); simpl.
      * now rewrite Hne.
      * now rewrite IH.
Qed.

Lemma hasProp_setProp (o : obj) (k k2 : string) (v : value) :
  hasProp (setProp o k v) k2 = (String.eqb k2 k || hasProp o k2)%bool.
Proof.
  induction o as [|[k' v'] o IH]; simpl.
  - now destruct (String.eqb k2 k).
  - destruct (String.eqb k k') eqn:E; simpl.
    + apply String.eqb_eq in E. subst k'. now destruct (String.eqb k2 k).
    + destruct (precedes k k'); simpl.
      * reflexivity.
      * rewrite IH. destruct (String.eqb k2 k'), (String.eqb k2 k); reflexivity.
Qed.

Lemma hasProp_setProp_same (o : obj) (k : string) (v : value) :
  hasProp (setProp o k v) k = true.
Proof. rewrite hasProp_setProp. now rewrite String.eqb_refl. Qed.

Lemma hasProp_setProp_other (o : obj) (k k2 : string) (v : value) :
  k2 <> k -> hasProp (setProp o k v) k2 = hasProp o k2.
Proof.
  intros Hne. rewrite hasProp_setProp.
  apply String.eqb_neq in Hne. now rewrite Hne.
Qed.

(** ** Arrays changed in place *)

Lemma heldAs_refl (v : value) : heldAs v v.
Proof. destruct v; simpl; try reflexivity. now eexists. Qed.

Lemma heldAs_trans (v1 v2 v3 : value) :
  heldAs v1 v2 -> heldAs v2 v3 -> heldAs v1 v3.
Proof.
  destruct v1; simpl; try (intros ->; simpl; now intros ->).
  intros [items2 ->]. simpl. exact (fun H => H).
Qed.


Lemma heldAs_isArray (v v' : value) :
  heldAs v v' -> isArray v' = isArray v.
Proof.
  destruct v; simpl; try (now intros ->). now intros [items' ->].
Qed.

Lemma ownKeys_inPlace (arrays o : obj) :
  ownKeys (inPlace arrays o) = ownKeys o.
Proof.
  unfold ownKeys, inPlace. rewrite map_map. apply map_ext.
  intros [k v]. simpl. destruct v; try reflexivity.
  now destruct (getProp arrays k).
Qed.

Lemma hasProp_inPlace (arrays o : obj) (k : string) :
  hasProp (inPlace arrays o) k = hasProp o k.
Proof.
  induction o as [|[k' v'] o IH]; simpl; [reflexivity|].
  assert (H : fst (match v', getProp arrays k' with
                   | VArr _, VArr items => (k', VArr items)
                   | _, _ => (k', v')
                   end) = k')
    by (destruct v'; try reflexivity; now destruct (getProp arrays k')).
  destruct (match v', getProp arrays k' with
            | VArr _, VArr items => (k', VArr items)
            | _, _ => (k', v')
            end) as [k'' v'']. simpl in H. subst k''.
  now rewrite IH.
Qed.

Lemma getProp_inPlace (arrays o : obj) (k : string) :
  heldAs (getProp o k) (getProp (inPlace arrays o) k).
Proof.
  induction o as [|[k' v'] o IH]; simpl; [reflexivity|].
  destruct v'; simpl; try (destruct (String.eqb k k'); [reflexivity | exact IH]).
  destruct (getProp arrays k'); simpl;
    (destruct (String.eqb k k'); [simpl; now eexists | exact IH]).
Qed.

Lemma inPlace_nil (o : obj) : inPlace [] o = o.
Proof.
  unfold inPlace. rewrite <- (map_id o) at 2. apply map_ext.
  intros [k v]. simpl. now destruct v.
Qed.

(** ** Cleaning of formulas *)

(** The first example of the formula editor: the comment line goes. *)
Example cleanFormula_basic_example :
  cleanFormula ("// Basic arithmetic example" ++ LF ++ "attack * 1.5 + defense")
  = "attack * 1.5 + defense".
Proof. reflexivity. Qed.

Example cleanFormula_blank_lines :
  cleanFormula ("a /* first */ +" ++ LF ++ "   " ++ LF ++ LF
                  ++ "  b // second" ++ LF ++ "  ")
  = ("a  +" ++ LF ++ "  b")%string.
Proof. reflexivity. Qed.

Lemma trimStart_head (s : string) :
  trimStart s = EmptyString
  \/ exists c rest, trimStart s = String c rest /\ isWhiteSpace c = false.
Proof.
  induction s as [|c s IH]; simpl; [now left|].
  destruct (isWhiteSpace c) eqn:E; [exact IH|].
  right. now exists c, s.
Qed.

Lemma trim_head (s : string) :
  trim s = EmptyString
  \/ exists c rest, trim s = String c rest /\ isWhiteSpace c = false.
Proof.
  unfold trim. destruct (trimStart_head s) as [->|(c & rest & -> & Hc)].
  - now left.
  - right. simpl. destruct (trimEnd rest).
    + rewrite Hc. now exists c, EmptyString.
    + now eexists c, _.
Qed.

(** Line 42 changes nothing: after [trim], no blank line is left at the
    start. *)
Lemma removeFirstBlankLine_after_trim (s : string) :
  removeFirstBlankLine (trim s) = trim s.
Proof.
  unfold removeFirstBlankLine.
  destruct (trim_head s) as [->|(c & rest & -> & Hc)]; simpl.
  - reflexivity.
  - now rewrite Hc.
Qed.

(** ** The pass, for every host *)

Section PassFacts.

Context {World : Type}.
Variable newFunction : host World.

Lemma evaluateField_skipped (st : passState World) (f : FieldSchema) :
  isEvaluated f = false -> evaluateField newFunction st f = Normal st.
Proof. unfold CreateEntityModal.evaluateField. now intros ->. Qed.

Lemma evaluateField_evaluated (st : passState World) (f : FieldSchema) :
  isEvaluated f = true -> evaluateField newFunction st f = settle st f (compute newFunction st f).
Proof. unfold CreateEntityModal.evaluateField. now intros ->. Qed.

Lemma isEvaluated_computed (f : FieldSchema) :
  isEvaluated f = true -> type f = "computed".
Proof.
  unfold isEvaluated. intros H. apply andb_prop in H as [H _].
  now apply String.eqb_eq.
Qed.

(** What [settle] does to [finalData]: one write, under the field's
    name, or none. *)
Lemma settle_getProp_other (st : passState World) (f : FieldSchema)
  (r : outcome * obj * World) (k : string) :
  k <> name f ->
  heldAs (getProp (finalData st) k)
         (getProp (finalData (stateOf (settle st f r))) k)
  /\ hasProp (finalData (stateOf (settle st f r))) k = hasProp (finalData st) k.
Proof.
  intros Hne. destruct r as [[[v|e] arrays] w]; simpl.
  - rewrite getProp_setProp_other, hasProp_setProp_other by exact Hne.
    split; [apply getProp_inPlace | apply hasProp_inPlace].
  - destruct (messageOf e); simpl.
    + rewrite getProp_setProp_other, hasProp_setProp_other by exact Hne.
      split; [apply getProp_inPlace | apply hasProp_inPlace].
    + split; [apply getProp_inPlace | apply hasProp_inPlace].
Qed.

Lemma evaluateField_getProp_other (st : passState World) (f : FieldSchema)
  (k : string) :
  (isEvaluated f = true -> k <> name f) ->
  heldAs (getProp (finalData st) k)
         (getProp (finalData (stateOf (evaluateField newFunction st f))) k)
  /\ hasProp (finalData (stateOf (evaluateField newFunction st f))) k
     = hasProp (finalData st) k.
Proof.
  intros H. unfold CreateEntityModal.evaluateField.
  destruct (isEvaluated f) eqn:E.
  - now apply settle_getProp_other, H.
  - split; [apply heldAs_refl | reflexivity].
Qed.

Lemma forEach_app (s1 s2 : list FieldSchema) (st : passState World) :
  forEach newFunction (s1 ++ s2) st =
  match forEach newFunction s1 st with
  | Normal st' => forEach newFunction s2 st'
  | Abrupt e st' => Abrupt e st'
  end.
Proof.
  revert st. induction s1 as [|f s1 IH]; intros st; simpl.
  - reflexivity.
  - destruct (evaluateField newFunction st f); [apply IH | reflexivity].
Qed.

(** Frame: a name under which no evaluated field of the schema is
    declared keeps its entry, however the pass ends: the pass assigns
    nothing to it, and what the formulas can do is change an array in
    place. *)
Lemma forEach_getProp_other (schema : list FieldSchema) (st : passState World)
  (k : string) :
  (forall f, In f schema -> isEvaluated f = true -> k <> name f) ->
  heldAs (getProp (finalData st) k)
         (getProp (finalData (stateOf (forEach newFunction schema st))) k)
  /\ hasProp (finalData (stateOf (forEach newFunction schema st))) k
     = hasProp (finalData st) k.
Proof.
  revert st. induction schema as [|f schema IH]; intros st H; simpl.
  - split; [apply heldAs_refl | reflexivity].
  - assert (Hf : isEvaluated f = true -> k <> name f)
      by (apply H; now left).
    destruct (evaluateField_getProp_other st f k Hf) as [Hg Hh].
    destruct (evaluateField newFunction st f) as [st'|e st'] eqn:E; simpl in *.
    + destruct (IH st') as [Hg' Hh'].
      { intros g Hin. apply H. now right. }
      split; [exact (heldAs_trans _ _ _ Hg Hg') | now rewrite Hh'].
    + now split.
Qed.


(** A pass that skips every field is the identity. *)
Lemma forEach_all_skipped (schema : list FieldSchema) (st : passState World) :
  (forall f, In f schema -> isEvaluated f = false) ->
  forEach newFunction schema st = Normal st.
Proof.
  induction schema as [|f schema IH]; intros H; simpl.
  - reflexivity.
  - rewrite evaluateField_skipped by (apply H; now left).
    apply IH. intros g Hin. apply H. now right.
Qed.

(** Fields the callback skips can be dropped from the schema. *)
Lemma forEach_filter (schema : list FieldSchema) (st : passState World) :
  forEach newFunction (filter isEvaluated schema) st = forEach newFunction schema st.
Proof.
  revert st. induction schema as [|f schema IH]; intros st; simpl.
  - reflexivity.
  - destruct (isEvaluated f) eqn:E; simpl.
    + destruct (evaluateField newFunction st f); [apply IH | reflexivity].
    + rewrite (evaluateField_skipped st f E). apply IH.
Qed.

(** When no thrown value is [null] or [undefined], the pass runs to its
    end and every evaluated field has an entry. *)
Lemma forEach_completes (schema : list FieldSchema) (st : passState World) :
  (forall p b a w e arrays w', newFunction p b a w = (Threw e, arrays, w') ->
                               exists m, messageOf e = inl m) ->
  exists st', forEach newFunction schema st = Normal st'
    /\ (forall k, hasProp (finalData st) k = true ->
                  hasProp (finalData st') k = true)
    /\ (forall f, In f schema -> isEvaluated f = true ->
                  hasProp (finalData st') (name f) = true).
Proof.
  intros Hhost. revert st.
  induction schema as [|f schema IH]; intros st; simpl.
  - exists st. repeat split; auto; intros f [].
  - assert (Hstep : exists st1, evaluateField newFunction st f = Normal st1
              /\ (forall k, hasProp (finalData st) k = true ->
                            hasProp (finalData st1) k = true)
              /\ (isEvaluated f = true ->
                  hasProp (finalData st1) (name f) = true)).
    { unfold CreateEntityModal.evaluateField.
      destruct (isEvaluated f) eqn:E.
      - unfold CreateEntityModal.compute.
        destruct (newFunction _ _ _ _) as [[[v|e] arrays] w'] eqn:R; simpl.
        + eexists; split; [reflexivity|]. simpl. split.
          * intros k Hk. rewrite hasProp_setProp, hasProp_inPlace, Hk.
            apply orb_true_r.
          * intros _. apply hasProp_setProp_same.
        + destruct (Hhost _ _ _ _ _ _ _ R) as [m ->].
          eexists; split; [reflexivity|]. simpl. split.
          * intros k Hk. rewrite hasProp_setProp, hasProp_inPlace, Hk.
            apply orb_true_r.
          * intros _. apply hasProp_setProp_same.
      - exists st. repeat split; auto; discriminate. }
    destruct Hstep as (st1 & -> & Hmono & Hf).
    destruct (IH st1) as (st' & -> & Hmono' & Hall).
    exists st'. split; [reflexivity|]. split.
    + intros k Hk. now apply Hmono', Hmono.
    + intros g [<-|Hin] Hg.
      * now apply Hmono', Hf.
      * now apply Hall.
Qed.

End PassFacts.

Section Submission.

Context {World : Type}.
Variable newFunction : host World.

(** What is posted is the [finalData] of a pass that ran to its end. *)
Lemma handleSubmit_posted (projectId entityName : string)
  (schema : list FieldSchema) (formData : obj) (w : World)
  (p : payload) (st : passState World) :
  handleSubmit newFunction projectId entityName schema formData w = Posted p st ->
  evaluateComputed newFunction schema formData w = Normal st
  /\ data p = finalData st.
Proof.
  unfold handleSubmit. destruct (isEmpty (trim entityName)); [discriminate|].
  destruct (evaluateComputed newFunction schema formData w); [|discriminate].
  intros H. injection H as <- <-. now split.
Qed.


(** A field that is evaluated and whose host call throws a value with a
    readable message gets the error text as its entry. *)
Lemma evaluateField_failed (st : passState World) (f : FieldSchema)
  (e : thrown) (arrays : obj) (w1 : World) (m : string) :
  isEvaluated f = true ->
  compute newFunction st f = (Threw e, arrays, w1) ->
  messageOf e = inl m ->
  evaluateField newFunction st f = Normal (afterFailure st f m arrays w1).
Proof.
  intros He Hc Hm. rewrite evaluateField_evaluated by exact He.
  rewrite Hc. simpl. now rewrite Hm.
Qed.

End Submission.

(** ** The claims that hold for every host *)

(** C8.  For every schema in which no field has type [computed], the
    evaluation pass computes nothing: it ends normally in its initial
    state, so the data payload is the input field-value map itself, with
    no entry added, removed or changed (and no error set, and the global
    state untouched). *)
Theorem no_computed_field_payload_is_input {World : Type}
  (newFunction : host World)
  (schema : list FieldSchema) (formData : obj) (w : World) :
  (forall f, In f schema -> type f <> "computed") ->
  evaluateComputed newFunction schema formData w
  = Normal (initialState formData w)
  /\ forall projectId entityName,
       isEmpty (trim entityName) = false ->
       handleSubmit newFunction projectId entityName schema formData w
       = Posted {| project_id := projectId; payload_name := entityName;
                   data := formData |} (initialState formData w).
Proof.
  intros Hplain.
  assert (Hpass : evaluateComputed newFunction schema formData w
                  = Normal (initialState formData w)).
  { unfold evaluateComputed. apply forEach_all_skipped. intros f Hin.
    destruct (isEvaluated f) eqn:E; [|reflexivity].
    apply isEvaluated_computed in E. now apply Hplain in Hin. }
  split; [exact Hpass|].
  intros projectId entityName Hname. unfold handleSubmit.
  now rewrite Hname, Hpass.
Qed.

Lemma no_computed_field_payload_is_input_witness :
  (forall f, In f plainSchema -> type f <> "computed")
  /\ evaluateComputed MiniJs.newFunction plainSchema
       [("title", VStr "Orc"); ("level", VNum (NInt 3))] []
     = Normal (initialState [("title", VStr "Orc"); ("level", VNum (NInt 3))] []).
Proof.
  assert (H : forall f, In f plainSchema -> type f <> "computed").
  { intros f [<-|[<-|[]]]; discriminate. }
  split; [exact H|].
  apply (no_computed_field_payload_is_input MiniJs.newFunction plainSchema
           [("title", VStr "Orc"); ("level", VNum (NInt 3))] [] H).
Defined.







(** ** The scope a formula is evaluated in *)

Lemma getProp_absent (o : obj) (k : string) :
  hasProp o k = false -> getProp o k = VUndefined.
Proof.
  induction o as [|[k' v'] o IH]; simpl; [reflexivity|].
  destruct (String.eqb k k'); [discriminate | exact IH].
Qed.

Lemma copy_getProp (source : obj) (keys : list string) (target : obj)
  (k : string) :
  getProp (fold_left (fun context key => setProp context key (getProp source key))
                     keys target) k
  = if existsb (String.eqb k) keys then getProp source k else getProp target k.
Proof.
  revert target. induction keys as [|k1 keys IH]; intros target; simpl.
  - reflexivity.
  - rewrite IH. destruct (existsb (String.eqb k) keys).
    + now rewrite orb_true_r.
    + rewrite orb_false_r. destruct (String.eqb k k1) eqn:E.
      * apply String.eqb_eq in E. subst k1. apply getProp_setProp_same.
      * apply getProp_setProp_other. now apply String.eqb_neq.
Qed.

Lemma copy_hasProp (source : obj) (keys : list string) (target : obj)
  (k : string) :
  hasProp (fold_left (fun context key => setProp context key (getProp source key))
                     keys target) k
  = (existsb (String.eqb k) keys || hasProp target k)%bool.
Proof.
  revert target. induction keys as [|k1 keys IH]; intros target; simpl.
  - reflexivity.
  - rewrite IH, hasProp_setProp.
    destruct (String.eqb k k1), (existsb (String.eqb k) keys); reflexivity.
Qed.

Lemma hasProp_ownKeys (o : obj) (k : string) :
  existsb (String.eqb k) (ownKeys o) = hasProp o k.
Proof.
  induction o as [|[k' v'] o IH]; simpl; [reflexivity|].
  rewrite IH. now destruct (String.eqb k k').
Qed.

(** The context binds what [finalData] binds, to the same values. *)
Lemma makeContext_hasProp (finalData : obj) (k : string) :
  hasProp (makeContext finalData) k = hasProp finalData k.
Proof.
  unfold makeContext. rewrite copy_hasProp, hasProp_ownKeys. simpl.
  apply orb_false_r.
Qed.

Lemma makeContext_getProp (finalData : obj) (k : string) :
  getProp (makeContext finalData) k = getProp finalData k.
Proof.
  unfold makeContext. rewrite copy_getProp, hasProp_ownKeys. simpl.
  destruct (hasProp finalData k) eqn:E; [reflexivity|].
  symmetry. now apply getProp_absent.
Qed.

Section StepFacts.

Context {World : Type}.
Variable newFunction : host World.

(** A step that ends normally stored the entry of its host call. *)
Lemma settle_normal (st st1 : passState World) (f : FieldSchema)
  (r : outcome * obj * World) :
  settle st f r = Normal st1 ->
  exists v, entryOf r = Some v
            /\ finalData st1
               = setProp (inPlace (arraysOf r) (finalData st)) (name f) v
            /\ world st1 = snd r.
Proof.
  destruct r as [[[v|e] arrays] w1]; unfold entryOf, outcomeOf, arraysOf; simpl.
  - intros H. injection H as <-. now exists v.
  - destruct (messageOf e) as [m|t]; [|discriminate].
    intros H. injection H as <-. now eexists.
Qed.


(** The frame of a run that ended normally. *)
Lemma forEach_normal_other (fields : list FieldSchema)
  (st final : passState World) (k : string) :
  forEach newFunction fields st = Normal final ->
  ~ In k (map name fields) ->
  heldAs (getProp (finalData st) k) (getProp (finalData final) k)
  /\ hasProp (finalData final) k = hasProp (finalData st) k.
Proof.
  intros Hrun Hk.
  destruct (forEach_getProp_other newFunction fields st k) as [Hg Hh].
  - intros f Hin _ ->. apply Hk. now apply in_map.
  - rewrite Hrun in Hg, Hh. now split.
Qed.

(** The names present after a run that ended normally. *)
Lemma forEach_keys (schema : list FieldSchema) (st final : passState World)
  (k : string) :
  forEach newFunction schema st = Normal final ->
  hasProp (finalData final) k
  = (hasProp (finalData st) k
     || existsb (fun f => isEvaluated f && String.eqb k (name f)) schema)%bool.
Proof.
  revert st. induction schema as [|f schema IH]; intros st; simpl.
  - intros H. injection H as <-. now rewrite orb_false_r.
  - destruct (evaluateField newFunction st f) as [st1|e st1] eqn:E;
      [|discriminate].
    intros H. rewrite (IH st1 H).
    unfold evaluateField in E. destruct (isEvaluated f); simpl.
    + apply settle_normal in E as (v & _ & Hdata & _).
      rewrite Hdata, hasProp_setProp, hasProp_inPlace.
      destruct (String.eqb k (name f)), (hasProp (finalData st) k); reflexivity.
    + now injection E as <-.
Qed.

End StepFacts.

(** ** C1: an exception can leave the pass *)

(** When the host never throws [null] or [undefined], no exception
    leaves the pass and every computed field with a formula has an
    entry.  (This is for the thrown values of the model, whose message
    can be read and turned into text whenever they are neither.) *)
Lemma neverThrows_when_messages_readable {World : Type}
  (newFunction : host World) :
  (forall p b a w e arrays w', newFunction p b a w = (Threw e, arrays, w') ->
                               exists m, messageOf e = inl m) ->
  Stated.neverThrows newFunction.
Proof.
  intros Hhost schema formData w. unfold evaluateComputed.
  destruct (forEach_completes newFunction schema (initialState formData w) Hhost)
    as (st' & -> & _ & Hall).
  split; [reflexivity | exact Hall].
Qed.

(** An ordinary failure stays local: the ReferenceError of [a = c] is
    stored as text and [b = n + 1] is evaluated all the same. *)
Example failure_with_message_stays_local :
  evaluateComputed MiniJs.newFunction independentSchema
    [("n", VNum (NInt 4))] []
  = Normal {| finalData := [("n", VNum (NInt 4));
                            ("a", VStr "ERROR: c is not defined");
                            ("b", VNum (NInt 5))];
              error := Some (errorText "a" "c is not defined");
              world := [] |}.
Proof. vm_compute. reflexivity. Qed.

(** C1.  The pass does propagate an exception when a formula throws
    [null]: for the schema [a = (() => { throw null; })()], [b = 1] and
    the empty field-value map, the catch block's [e.message] raises a
    TypeError that leaves the pass; neither [a] nor the remaining field
    [b] gets an entry, and nothing is posted. *)
Theorem thrown_null_leaves_the_pass :
  evaluateComputed MiniJs.newFunction throwingSchema [] []
  = Abrupt (ThrownError "TypeError"
              "Cannot read properties of null (reading 'message')")
           (initialState [] [])
  /\ hasProp (finalData (stateOf
        (evaluateComputed MiniJs.newFunction throwingSchema [] []))) "a" = false
  /\ hasProp (finalData (stateOf
        (evaluateComputed MiniJs.newFunction throwingSchema [] []))) "b" = false
  /\ handleSubmit MiniJs.newFunction "project" "Orc" throwingSchema [] []
     = Failed (ThrownError "TypeError"
                 "Cannot read properties of null (reading 'message')")
              (initialState [] [])
  /\ ~ Stated.neverThrows MiniJs.newFunction.
Proof.
  assert (E : evaluateComputed MiniJs.newFunction throwingSchema [] []
              = Abrupt (ThrownError "TypeError"
                          "Cannot read properties of null (reading 'message')")
                       (initialState [] []))
    by (vm_compute; reflexivity).
  split; [exact E|]. rewrite E.
  split; [reflexivity|]. split; [reflexivity|].
  split; [vm_compute; reflexivity|].
  intros H. destruct (H throwingSchema [] []) as [Hesc _].
  rewrite E in Hesc. discriminate.
Qed.

(** ** C3: the order of the schema *)

(** C3, as stated, fails: [a = 1], [b = a + 1] stores 2 for [b], and
    the permuted schema [b = a + 1], [a = 1] stores an error text. *)
Lemma permuted_schema_changes_result :
  Permutation orderedSchema reorderedSchema
  /\ getProp (finalData (stateOf
        (evaluateComputed MiniJs.newFunction orderedSchema [] []))) "b"
     = VNum (NInt 2)
  /\ getProp (finalData (stateOf
        (evaluateComputed MiniJs.newFunction reorderedSchema [] []))) "b"
     = VStr "ERROR: a is not defined"
  /\ ~ Stated.orderIndependent MiniJs.newFunction.
Proof.
  assert (P : Permutation orderedSchema reorderedSchema) by apply perm_swap.
  split; [exact P|].
  split; [vm_compute; reflexivity|].
  split; [vm_compute; reflexivity|].
  intros H. specialize (H orderedSchema reorderedSchema [] [] "b" P).
  vm_compute in H. discriminate.
Qed.

(** C3, amended.  The result is determined by the sequence of the
    computed fields that have a formula, in declaration order: two
    schemas with the same such sequence (one a permutation of the other
    that only moves other fields, say) give the same result, whatever
    the host. *)
Theorem result_depends_on_computed_sequence {World : Type}
  (newFunction : host World)
  (schema schema' : list FieldSchema) (formData : obj) (w : World) :
  filter isEvaluated schema = filter isEvaluated schema' ->
  evaluateComputed newFunction schema formData w
  = evaluateComputed newFunction schema' formData w.
Proof.
  intros H. unfold evaluateComputed.
  rewrite <- (forEach_filter newFunction schema).
  rewrite <- (forEach_filter newFunction schema').
  now rewrite H.
Qed.

Lemma result_depends_on_computed_sequence_witness :
  Permutation mixedSchema mixedSchemaMoved
  /\ evaluateComputed MiniJs.newFunction mixedSchema [("n", VNum (NInt 4))] []
     = evaluateComputed MiniJs.newFunction mixedSchemaMoved
         [("n", VNum (NInt 4))] [].
Proof.
  split; [apply perm_swap|].
  apply (result_depends_on_computed_sequence MiniJs.newFunction
           mixedSchema mixedSchemaMoved [("n", VNum (NInt 4))] []).
  reflexivity.
Defined.

(** ** C2 and C4: no dependency analysis *)

Section TwoFields.

Context {World : Type}.
Variable newFunction : host World.



End TwoFields.







(** ** C5: a failing field and the fields after it *)


(** A formula that fails can have changed an array before: after
    [a = tags.reverse() + c], the entry of [a] is the error text and
    [tags] is reversed. *)
Example failed_formula_leaves_array_reversed :
  evaluateComputed MiniJs.newFunction reversingFailureSchema
    [("tags", VArr ["fire"; "ice"])] []
  = Normal {| finalData := [("tags", VArr ["ice"; "fire"]);
                            ("a", VStr "ERROR: c is not defined")];
              error := Some (errorText "a" "c is not defined");
              world := [] |}.
Proof. vm_compute. reflexivity. Qed.



(** ** C6: global state *)

Section PureHost.

Context {World : Type}.
Variable newFunction : host World.
Variable pureFunction : string -> string -> obj -> outcome * obj.
Hypothesis newFunction_pure :
  forall p b a w, newFunction p b a w = (pureFunction p b a, w).



End PureHost.




(** ** C9: the schema entries of a new template *)

Lemma cleanField_type (field : CreateTemplateModal.fieldDraft) :
  getProp (CreateTemplateModal.cleanField field) "type"
  = VStr (CreateTemplateModal.type field).
Proof.
  unfold CreateTemplateModal.cleanField, CreateTemplateModal.spread.
  destruct (CreateTemplateModal.isSelect (CreateTemplateModal.type field)),
           (String.eqb (CreateTemplateModal.type field) "computed");
    reflexivity.
Qed.

Lemma cleanField_formula (field : CreateTemplateModal.fieldDraft) :
  hasProp (CreateTemplateModal.cleanField field) "formula"
  = String.eqb (CreateTemplateModal.type field) "computed".
Proof.
  unfold CreateTemplateModal.cleanField, CreateTemplateModal.spread.
  destruct (CreateTemplateModal.isSelect (CreateTemplateModal.type field)),
           (String.eqb (CreateTemplateModal.type field) "computed");
    reflexivity.
Qed.

Lemma cleanField_options (field : CreateTemplateModal.fieldDraft) :
  hasProp (CreateTemplateModal.cleanField field) "options"
  = CreateTemplateModal.isSelect (CreateTemplateModal.type field).
Proof.
  unfold CreateTemplateModal.cleanField, CreateTemplateModal.spread.
  destruct (CreateTemplateModal.isSelect (CreateTemplateModal.type field)),
           (String.eqb (CreateTemplateModal.type field) "computed");
    reflexivity.
Qed.

(** What survives [JSON.stringify]: a computed field for which no
    formula was ever saved has the property [formula], with the value
    [undefined], and loses it in the request body. *)
Lemma formula_undefined_is_not_serialized :
  hasProp (CreateTemplateModal.cleanField
     {| CreateTemplateModal.name := "power";
        CreateTemplateModal.type := "computed";
        CreateTemplateModal.options := EmptyString;
        CreateTemplateModal.formula := None |}) "formula" = true
  /\ hasProp (CreateTemplateModal.serialized (CreateTemplateModal.cleanField
     {| CreateTemplateModal.name := "power";
        CreateTemplateModal.type := "computed";
        CreateTemplateModal.options := EmptyString;
        CreateTemplateModal.formula := None |})) "formula" = false.
Proof. split; reflexivity. Qed.

(** The properties [JSON.stringify] writes for a schema entry. *)
Lemma serialized_cleanField (field : CreateTemplateModal.fieldDraft) :
  CreateTemplateModal.serialized (CreateTemplateModal.cleanField field)
  = [("name", VStr (CreateTemplateModal.name field));
     ("type", VStr (CreateTemplateModal.type field))]
    ++ (if CreateTemplateModal.isSelect (CreateTemplateModal.type field)
        then [("options",
               VArr (map trim (split_comma (CreateTemplateModal.options field))))]
        else [])
    ++ (if String.eqb (CreateTemplateModal.type field) "computed"
        then match CreateTemplateModal.formula field with
             | Some text => [("formula", VStr text)]
             | None => []
             end
        else []).
Proof.
  destruct field as [n t o fo].
  unfold CreateTemplateModal.serialized, CreateTemplateModal.cleanField,
    CreateTemplateModal.spread. simpl.
  destruct (CreateTemplateModal.isSelect t), (String.eqb t "computed"),
           fo; reflexivity.
Qed.

(** C9, as stated, fails: a field set to [computed] for which no
    formula was saved is a schema entry of type [computed] that is sent
    without a [formula]. *)
Lemma computed_entry_without_formula :
  In [("name", VStr "power"); ("type", VStr "computed")]
     (map CreateTemplateModal.serialized
        (CreateTemplateModal.cleanFields
           [ {| CreateTemplateModal.name := "power";
                CreateTemplateModal.type := "computed";
                CreateTemplateModal.options := EmptyString;
                CreateTemplateModal.formula := None |} ]))
  /\ ~ Stated.formulaIffComputed.
Proof.
  assert (Hin : In [("name", VStr "power"); ("type", VStr "computed")]
     (map CreateTemplateModal.serialized
        (CreateTemplateModal.cleanFields
           [ {| CreateTemplateModal.name := "power";
                CreateTemplateModal.type := "computed";
                CreateTemplateModal.options := EmptyString;
                CreateTemplateModal.formula := None |} ])))
    by (left; reflexivity).
  split; [exact Hin|].
  intros H. destruct (H _ _ Hin) as [[_ Hformula] _].
  specialize (Hformula eq_refl). discriminate.
Qed.

(** C9, amended.  Every schema entry that template creation sends has
    the field's type; it has a [formula] property if and only if the
    type is [computed] and a formula was saved for the field in the
    formula editor, and the property is then that text; so a [formula]
    is present only on computed fields, and a computed field for which
    none was saved has none.  It has an [options] property if and only if
    its type is [select] or [multiselect].  (Before [JSON.stringify],
    the object has a [formula] property, possibly [undefined], exactly
    when the type is [computed].) *)
Theorem schema_entry_formula_iff_saved
  (fields : list CreateTemplateModal.fieldDraft) (entry : obj) :
  In entry (map CreateTemplateModal.serialized
                (CreateTemplateModal.cleanFields fields)) ->
  exists field,
    In field fields
    /\ entry = CreateTemplateModal.serialized
                 (CreateTemplateModal.cleanField field)
    /\ getProp entry "type" = VStr (CreateTemplateModal.type field)
    /\ (hasProp entry "formula" = true <->
        (CreateTemplateModal.type field = "computed"
         /\ CreateTemplateModal.formula field <> None))
    /\ (forall text,
          CreateTemplateModal.type field = "computed" ->
          CreateTemplateModal.formula field = Some text ->
          getProp entry "formula" = VStr text)
    /\ (hasProp entry "formula" = true ->
        getProp entry "type" = VStr "computed")
    /\ (hasProp entry "options" = true <->
        (getProp entry "type" = VStr "select"
         \/ getProp entry "type" = VStr "multiselect"))
    /\ (hasProp (CreateTemplateModal.cleanField field) "formula" = true <->
        CreateTemplateModal.type field = "computed").
Proof.
  unfold CreateTemplateModal.cleanFields. rewrite map_map. intros Hin.
  apply in_map_iff in Hin as (field & <- & Hfield).
  exists field. split; [exact Hfield|]. split; [reflexivity|].
  rewrite serialized_cleanField, cleanField_formula.
  destruct field as [n t o fo]. unfold CreateTemplateModal.isSelect. simpl.
  destruct (String.eqb_spec t "computed") as [Hc|Hc].
  - subst t. simpl. destruct fo as [text|]; simpl.
    + split; [reflexivity|].
      split; [split; [intros _; split; [reflexivity | discriminate]
                     | reflexivity]|].
      split; [intros text' _ H; now injection H as <-|].
      split; [reflexivity|].
      split; [split; [discriminate | intros [H|H]; discriminate]|].
      split; reflexivity.
    + split; [reflexivity|].
      split; [split; [discriminate | intros [_ H]; now contradiction H]|].
      split; [discriminate|].
      split; [discriminate|].
      split; [split; [discriminate | intros [H|H]; discriminate]|].
      split; reflexivity.
  - destruct (String.eqb_spec t "select") as [Hs|Hs];
      destruct (String.eqb_spec t "multiselect") as [Hm|Hm]; simpl;
      (split; [reflexivity|]);
      (split; [split; [discriminate | intros [H _]; now contradiction Hc]|]);
      (split; [intros text H; now contradiction Hc|]);
      (split; [discriminate|]);
      (split; [|split; [discriminate | intros H; now contradiction Hc]]).
    + split; [intros _; left; now rewrite Hs | reflexivity].
    + split; [intros _; left; now rewrite Hs | reflexivity].
    + split; [intros _; right; now rewrite Hm | reflexivity].
    + split; [discriminate|].
      intros [H|H]; injection H as H; contradiction.
Qed.

Lemma schema_entry_formula_iff_saved_witness :
  exists field,
    In field
       [ {| CreateTemplateModal.name := "element";
            CreateTemplateModal.type := "select";
            CreateTemplateModal.options := "Fire, Water";
            CreateTemplateModal.formula := None |};
         {| CreateTemplateModal.name := "power";
            CreateTemplateModal.type := "computed";
            CreateTemplateModal.options := EmptyString;
            CreateTemplateModal.formula := Some "attack + defense" |} ]
    /\ [("name", VStr "power"); ("type", VStr "computed");
        ("formula", VStr "attack + defense")]
       = CreateTemplateModal.serialized (CreateTemplateModal.cleanField field)
    /\ getProp [("name", VStr "power"); ("type", VStr "computed");
                ("formula", VStr "attack + defense")] "type"
       = VStr (CreateTemplateModal.type field)
    /\ (hasProp [("name", VStr "power"); ("type", VStr "computed");
                 ("formula", VStr "attack + defense")] "formula" = true <->
        (CreateTemplateModal.type field = "computed"
         /\ CreateTemplateModal.formula field <> None))
    /\ (forall text,
          CreateTemplateModal.type field = "computed" ->
          CreateTemplateModal.formula field = Some text ->
          getProp [("name", VStr "power"); ("type", VStr "computed");
                   ("formula", VStr "attack + defense")] "formula" = VStr text)
    /\ (hasProp [("name", VStr "power"); ("type", VStr "computed");
                 ("formula", VStr "attack + defense")] "formula" = true ->
        getProp [("name", VStr "power"); ("type", VStr "computed");
                 ("formula", VStr "attack + defense")] "type" = VStr "computed")
    /\ (hasProp [("name", VStr "power"); ("type", VStr "computed");
                 ("formula", VStr "attack + defense")] "options" = true <->
        (getProp [("name", VStr "power"); ("type", VStr "computed");
                  ("formula", VStr "attack + defense")] "type" = VStr "select"
         \/ getProp [("name", VStr "power"); ("type", VStr "computed");
                     ("formula", VStr "attack + defense")] "type"
            = VStr "multiselect"))
    /\ (hasProp (CreateTemplateModal.cleanField field) "formula" = true <->
        CreateTemplateModal.type field = "computed").
Proof.
  apply (schema_entry_formula_iff_saved
           [ {| CreateTemplateModal.name := "element";
                CreateTemplateModal.type := "select";
                CreateTemplateModal.options := "Fire, Water";
                CreateTemplateModal.formula := None |};
             {| CreateTemplateModal.name := "power";
                CreateTemplateModal.type := "computed";
                CreateTemplateModal.options := EmptyString;
                CreateTemplateModal.formula := Some "attack + defense" |} ]).
  right. left. reflexivity.
Defined.

(* ================================================================== *)
(** * Further properties of the code *)

(** ** The form of CreateEntityModal *)

(** X1.  After [handleChange(field, value)], reading [field] gives
    [value] and the field is present; every other field reads as
    before. *)
Theorem handleChange_lookup (formData : obj) (field : string) (v : value) :
  getProp (CreateEntityForm.handleChange formData field v) field = v
  /\ hasProp (CreateEntityForm.handleChange formData field v) field = true
  /\ forall other, other <> field ->
       getProp (CreateEntityForm.handleChange formData field v) other
       = getProp formData other
       /\ hasProp (CreateEntityForm.handleChange formData field v) other
          = hasProp formData other.
Proof.
  unfold CreateEntityForm.handleChange.
  split; [apply getProp_setProp_same|].
  split; [apply hasProp_setProp_same|].
  intros other Hne. split.
  - now apply getProp_setProp_other.
  - now apply hasProp_setProp_other.
Qed.

Lemma handleChange_lookup_witness :
  getProp (CreateEntityForm.handleChange [("level", VNum (NInt 3))]
             "title" (VStr "Orc")) "level"
  = VNum (NInt 3).
Proof.
  refine (proj1 (proj2 (proj2 (handleChange_lookup [("level", VNum (NInt 3))]
                                 "title" (VStr "Orc"))) "level" _)).
  discriminate.
Defined.

Lemma fieldValue_array (formData : obj) (fieldKey : string)
  (items : list string) :
  CreateEntityForm.fieldValue
    (CreateEntityForm.handleChange formData fieldKey (VArr items)) fieldKey
  = VArr items.
Proof.
  unfold CreateEntityForm.fieldValue, CreateEntityForm.handleChange.
  now rewrite getProp_setProp_same.
Qed.

Lemma isChecked_currentOptions (v : value) (opt : string) :
  CreateEntityForm.isChecked v opt
  = existsb (String.eqb opt) (CreateEntityForm.currentOptions v).
Proof. now destruct v. Qed.

Lemma existsb_removeFirst_other (opt other : string) (l : list string) :
  other <> opt ->
  existsb (String.eqb other) (CreateEntityForm.removeFirst opt l)
  = existsb (String.eqb other) l.
Proof.
  intros Hne. induction l as [|x l IH]; simpl; [reflexivity|].
  destruct (String.eqb x opt) eqn:E; simpl.
  - apply String.eqb_eq in E. subst x.
    apply String.eqb_neq in Hne. now rewrite Hne.
  - now rewrite IH.
Qed.

Lemma removeFirst_absent (opt : string) (l : list string) :
  existsb (String.eqb opt) l = false ->
  CreateEntityForm.removeFirst opt l = l.
Proof.
  induction l as [|x l IH]; simpl; [reflexivity|].
  intros H. apply orb_false_iff in H as [Hx Hl].
  rewrite String.eqb_sym, Hx. now rewrite IH.
Qed.

Lemma removeFirst_appended (opt : string) (l : list string) :
  existsb (String.eqb opt) l = false ->
  CreateEntityForm.removeFirst opt (l ++ [opt]) = l.
Proof.
  induction l as [|x l IH]; simpl.
  - now rewrite String.eqb_refl.
  - intros H. apply orb_false_iff in H as [Hx Hl].
    rewrite String.eqb_sym, Hx. now rewrite IH.
Qed.

Lemma existsb_eqb_In (opt : string) (l : list string) :
  existsb (String.eqb opt) l = true <-> In opt l.
Proof.
  rewrite existsb_exists. split.
  - intros (x & Hin & E). apply String.eqb_eq in E. now subst.
  - intros Hin. exists opt. split; [exact Hin | apply String.eqb_refl].
Qed.

Lemma removeFirst_NoDup (opt : string) (l : list string) :
  NoDup l ->
  NoDup (CreateEntityForm.removeFirst opt l)
  /\ existsb (String.eqb opt) (CreateEntityForm.removeFirst opt l) = false.
Proof.
  induction 1 as [|x l Hx Hl IH]; simpl.
  - split; [constructor | reflexivity].
  - destruct (String.eqb x opt) eqn:E.
    + apply String.eqb_eq in E. subst x. split; [exact Hl|].
      destruct (existsb (String.eqb opt) l) eqn:F; [|reflexivity].
      apply existsb_eqb_In in F. contradiction.
    + destruct IH as [IHn IHe]. split.
      * constructor; [|exact IHn]. intros Hin. apply Hx.
        apply existsb_eqb_In in Hin.
        rewrite existsb_removeFirst_other in Hin
          by (intros ->; now rewrite String.eqb_refl in E).
        now apply existsb_eqb_In.
      * simpl. rewrite String.eqb_sym, E. exact IHe.
Qed.

(** X2.  Ticking the checkbox of an option makes the option selected:
    after the handler ran with [checked] true, the checkbox is drawn
    checked, whatever the field held before (nothing, a non-array, or
    an array). *)
Theorem toggleOption_checks (formData : obj) (fieldKey opt : string) :
  CreateEntityForm.isChecked
    (CreateEntityForm.fieldValue
       (CreateEntityForm.toggleOption formData fieldKey opt true) fieldKey)
    opt = true.
Proof.
  unfold CreateEntityForm.toggleOption. rewrite fieldValue_array. simpl.
  rewrite existsb_app. simpl. rewrite String.eqb_refl.
  now rewrite orb_true_r.
Qed.

(** X3.  Ticking or unticking one option leaves every other option of
    the field, and every other field of the form, as it was. *)
Theorem toggleOption_others (formData : obj) (fieldKey opt : string)
  (checked : bool) :
  (forall other, other <> opt ->
     CreateEntityForm.isChecked
       (CreateEntityForm.fieldValue
          (CreateEntityForm.toggleOption formData fieldKey opt checked)
          fieldKey) other
     = CreateEntityForm.isChecked
         (CreateEntityForm.fieldValue formData fieldKey) other)
  /\ (forall otherKey, otherKey <> fieldKey ->
        getProp (CreateEntityForm.toggleOption formData fieldKey opt checked)
                otherKey
        = getProp formData otherKey).
Proof.
  split.
  - intros other Hne. unfold CreateEntityForm.toggleOption.
    rewrite fieldValue_array.
    rewrite (isChecked_currentOptions (CreateEntityForm.fieldValue _ _)).
    simpl. destruct checked.
    + rewrite existsb_app. simpl.
      apply String.eqb_neq in Hne. rewrite Hne. now rewrite !orb_false_r.
    + now apply existsb_removeFirst_other.
  - intros otherKey Hne. unfold CreateEntityForm.toggleOption,
      CreateEntityForm.handleChange.
    now apply getProp_setProp_other.
Qed.

Lemma toggleOption_others_witness :
  CreateEntityForm.isChecked
    (CreateEntityForm.fieldValue
       (CreateEntityForm.toggleOption [("tags", VArr ["fire"; "ice"])]
          "tags" "ice" false) "tags") "fire"
  = CreateEntityForm.isChecked
      (CreateEntityForm.fieldValue [("tags", VArr ["fire"; "ice"])] "tags")
      "fire".
Proof.
  refine (proj1 (toggleOption_others [("tags", VArr ["fire"; "ice"])]
                   "tags" "ice" false) "fire" _).
  discriminate.
Defined.

(** X4.  When the selection holds no option twice, it stays so as long
    as every click reports the opposite of what the checkbox showed;
    and unticking an option then really unselects it. *)
Theorem toggleOption_keeps_selection_distinct (formData : obj)
  (fieldKey opt : string) (checked : bool) :
  NoDup (CreateEntityForm.currentOptions
           (CreateEntityForm.fieldValue formData fieldKey)) ->
  checked = negb (CreateEntityForm.isChecked
                    (CreateEntityForm.fieldValue formData fieldKey) opt) ->
  NoDup (CreateEntityForm.currentOptions
           (CreateEntityForm.fieldValue
              (CreateEntityForm.toggleOption formData fieldKey opt checked)
              fieldKey))
  /\ CreateEntityForm.isChecked
       (CreateEntityForm.fieldValue
          (CreateEntityForm.toggleOption formData fieldKey opt checked)
          fieldKey) opt = checked.
Proof.
  intros Hnodup Hclick. unfold CreateEntityForm.toggleOption.
  rewrite fieldValue_array. rewrite isChecked_currentOptions in Hclick.
  simpl. destruct checked.
  - symmetry in Hclick. apply negb_true_iff in Hclick. split.
    + apply NoDup_app; [exact Hnodup | repeat constructor; intros [] |].
      intros x Hx [<-|[]].
      apply existsb_eqb_In in Hx. congruence.
    + rewrite existsb_app. simpl. rewrite String.eqb_refl.
      now rewrite orb_true_r.
  - now apply removeFirst_NoDup.
Qed.

Lemma toggleOption_keeps_selection_distinct_witness :
  NoDup (CreateEntityForm.currentOptions
           (CreateEntityForm.fieldValue
              (CreateEntityForm.toggleOption [("tags", VArr ["fire"; "ice"])]
                 "tags" "fire" false) "tags"))
  /\ CreateEntityForm.isChecked
       (CreateEntityForm.fieldValue
          (CreateEntityForm.toggleOption [("tags", VArr ["fire"; "ice"])]
             "tags" "fire" false) "tags") "fire" = false.
Proof.
  apply (toggleOption_keeps_selection_distinct
           [("tags", VArr ["fire"; "ice"])] "tags" "fire" false).
  - simpl. repeat constructor; simpl; intuition discriminate.
  - reflexivity.
Defined.

(** X5.  Ticking an option that was not selected and unticking it again
    restores the selection of the field. *)
Theorem toggleOption_tick_untick (formData : obj) (fieldKey opt : string) :
  CreateEntityForm.isChecked
    (CreateEntityForm.fieldValue formData fieldKey) opt = false ->
  CreateEntityForm.currentOptions
    (CreateEntityForm.fieldValue
       (CreateEntityForm.toggleOption
          (CreateEntityForm.toggleOption formData fieldKey opt true)
          fieldKey opt false) fieldKey)
  = CreateEntityForm.currentOptions
      (CreateEntityForm.fieldValue formData fieldKey).
Proof.
  intros Hoff. rewrite isChecked_currentOptions in Hoff.
  unfold CreateEntityForm.toggleOption at 1. rewrite fieldValue_array.
  unfold CreateEntityForm.toggleOption. rewrite fieldValue_array. simpl.
  now apply removeFirst_appended.
Qed.

Lemma toggleOption_tick_untick_witness :
  CreateEntityForm.currentOptions
    (CreateEntityForm.fieldValue
       (CreateEntityForm.toggleOption
          (CreateEntityForm.toggleOption [("tags", VArr ["fire"])]
             "tags" "ice" true)
          "tags" "ice" false) "tags")
  = CreateEntityForm.currentOptions
      (CreateEntityForm.fieldValue [("tags", VArr ["fire"])] "tags").
Proof.
  apply (toggleOption_tick_untick [("tags", VArr ["fire"])] "tags" "ice").
  reflexivity.
Defined.

(** ** The field lists of the template modals *)

(** X6.  Removing the field that [addField] has just appended restores
    the list of fields. *)
Theorem removeField_addField (fields : list obj) :
  TemplateFields.removeField (TemplateFields.addField fields)
                             (List.length fields)
  = fields.
Proof.
  unfold TemplateFields.addField.
  induction fields as [|f fields IH]; simpl; [reflexivity|].
  now rewrite IH.
Qed.

(** X7.  [removeField] takes out exactly the entry at [index] and keeps
    the others in order: entries before [index] stay in place, entries
    after it move up by one; an [index] past the end changes nothing. *)
Theorem removeField_entries (fields : list obj) (index : nat) :
  (forall j, j < index ->
     nth_error (TemplateFields.removeField fields index) j
     = nth_error fields j)
  /\ (forall j, index <= j ->
        nth_error (TemplateFields.removeField fields index) j
        = nth_error fields (S j))
  /\ (List.length fields <= index ->
      TemplateFields.removeField fields index = fields).
Proof.
  revert index. induction fields as [|f fields IH]; intros index.
  - repeat split; intros; simpl; try reflexivity.
    now destruct j.
  - destruct index as [|i]; simpl.
    + repeat split; intros; try lia; try reflexivity.
    + destruct (IH i) as (Hbefore & Hafter & Hpast).
      repeat split.
      * intros [|j] Hj; simpl; [reflexivity|]. apply Hbefore. lia.
      * intros [|j] Hj; simpl; [lia|]. apply Hafter. lia.
      * intros Hlen. rewrite Hpast; [reflexivity | lia].
Qed.

Lemma removeField_entries_witness :
  nth_error (TemplateFields.removeField
               [TemplateFields.newField; [("name", VStr "hp")];
                [("name", VStr "mp")]] 1) 1
  = nth_error [TemplateFields.newField; [("name", VStr "hp")];
               [("name", VStr "mp")]] 2.
Proof.
  refine (proj1 (proj2 (removeField_entries
            [TemplateFields.newField; [("name", VStr "hp")];
             [("name", VStr "mp")]] 1)) 1 _).
  lia.
Defined.

Lemma updateAt_spec (fields : list obj) (index : nat) (key : string)
  (v : value) :
  match TemplateFields.updateAt fields index key v with
  | Some updated =>
      index < List.length fields
      /\ List.length updated = List.length fields
      /\ (forall j, j <> index -> nth_error updated j = nth_error fields j)
      /\ exists old, nth_error fields index = Some old
                     /\ nth_error updated index = Some (setProp old key v)
  | None => List.length fields <= index
  end.
Proof.
  revert index. induction fields as [|f fields IH]; intros index; simpl.
  - lia.
  - destruct index as [|i]; simpl.
    + repeat split; try lia.
      * intros [|j] Hj; [congruence | reflexivity].
      * now exists f.
    + specialize (IH i).
      destruct (TemplateFields.updateAt fields i key v) as [updated|]; simpl.
      * destruct IH as (Hlt & Hlen & Hother & old & Hold & Hnew).
        repeat split; try lia.
        -- intros [|j] Hj; simpl; [reflexivity|]. apply Hother. lia.
        -- now exists old.
      * lia.
Qed.

(** X8.  [updateField(index, key, value)] on an existing entry changes
    that entry only, and in it only the property [key], which then reads
    [value]; the number of entries stays.  On an index past the end it
    throws a TypeError and there is no new list. *)
Theorem updateField_result (fields : list obj) (index : nat) (key : string)
  (v : value) :
  (index < List.length fields ->
   exists updated old new,
     TemplateFields.updateField fields index key v = inl updated
     /\ List.length updated = List.length fields
     /\ (forall j, j <> index -> nth_error updated j = nth_error fields j)
     /\ nth_error fields index = Some old
     /\ nth_error updated index = Some new
     /\ getProp new key = v
     /\ (forall other, other <> key -> getProp new other = getProp old other))
  /\ (List.length fields <= index ->
      TemplateFields.updateField fields index key v
      = inr (ThrownError "TypeError"
               ("Cannot set properties of undefined (setting '" ++ key ++ "')"))).
Proof.
  unfold TemplateFields.updateField.
  pose proof (updateAt_spec fields index key v) as H.
  destruct (TemplateFields.updateAt fields index key v) as [updated|].
  - destruct H as (Hlt & Hlen & Hother & old & Hold & Hnew). split.
    + intros _. exists updated, old, (setProp old key v).
      repeat split; try assumption.
      * apply getProp_setProp_same.
      * intros other Hne. now apply getProp_setProp_other.
    + lia.
  - split; [lia | reflexivity].
Qed.

Lemma updateField_result_witness :
  exists updated old new,
    TemplateFields.updateField [TemplateFields.newField] 0 "name" (VStr "hp")
    = inl updated
    /\ List.length updated = List.length [TemplateFields.newField]
    /\ (forall j, j <> 0 ->
          nth_error updated j = nth_error [TemplateFields.newField] j)
    /\ nth_error [TemplateFields.newField] 0 = Some old
    /\ nth_error updated 0 = Some new
    /\ getProp new "name" = VStr "hp"
    /\ (forall other, other <> "name" -> getProp new other = getProp old other).
Proof.
  apply (proj1 (updateField_result [TemplateFields.newField] 0 "name"
                  (VStr "hp"))).
  simpl. lia.
Defined.

(** The callback of the create modal on a draft's object is the
    cleaning of the draft. *)
Lemma cleanField_draftObject (d : CreateTemplateModal.fieldDraft) :
  TemplateFields.cleanField (TemplateFields.draftObject d)
  = inl (CreateTemplateModal.cleanField d).
Proof.
  destruct d as [n t o f].
  unfold TemplateFields.cleanField, TemplateFields.draftObject,
    CreateTemplateModal.cleanField, TemplateFields.isSelectType,
    TemplateFields.isComputedType, TemplateFields.splitOptions.
  destruct f as [f|]; simpl;
    destruct (CreateTemplateModal.isSelect t), (String.eqb t "computed");
    reflexivity.
Qed.

(** X9.  In the create modal, where every field is made by [addField]
    and its options are typed as text, cleaning never throws: the
    callback yields for each field exactly the entry of the template
    schema, so a non-blank template name always leads to a request. *)
Theorem create_modal_cleaning_succeeds (templateName : string)
  (drafts : list CreateTemplateModal.fieldDraft) :
  TemplateFields.cleanFields (map TemplateFields.draftObject drafts)
  = inl (CreateTemplateModal.cleanFields drafts)
  /\ (isEmpty (trim templateName) = false ->
      TemplateFields.handleSubmit templateName
        (map TemplateFields.draftObject drafts)
      = TemplateFields.Sent templateName
          (CreateTemplateModal.cleanFields drafts)).
Proof.
  assert (H : TemplateFields.cleanFields (map TemplateFields.draftObject drafts)
              = inl (CreateTemplateModal.cleanFields drafts)).
  { induction drafts as [|d drafts IH]; simpl; [reflexivity|].
    now rewrite cleanField_draftObject, IH. }
  split; [exact H|].
  intros Hname. unfold TemplateFields.handleSubmit. now rewrite Hname, H.
Qed.

Lemma create_modal_cleaning_succeeds_witness :
  TemplateFields.handleSubmit "Monster"
    (map TemplateFields.draftObject
       [ {| CreateTemplateModal.name := "element";
            CreateTemplateModal.type := "select";
            CreateTemplateModal.options := "Fire, Water";
            CreateTemplateModal.formula := None |} ])
  = TemplateFields.Sent "Monster"
      (CreateTemplateModal.cleanFields
         [ {| CreateTemplateModal.name := "element";
              CreateTemplateModal.type := "select";
              CreateTemplateModal.options := "Fire, Water";
              CreateTemplateModal.formula := None |} ]).
Proof.
  apply (proj2 (create_modal_cleaning_succeeds "Monster"
    [ {| CreateTemplateModal.name := "element";
         CreateTemplateModal.type := "select";
         CreateTemplateModal.options := "Fire, Water";
         CreateTemplateModal.formula := None |} ])).
  reflexivity.
Defined.

(** An entry of a saved schema, loaded into the edit modal and cleaned
    again without an edit. *)
Lemma cleanField_reloaded (d : CreateTemplateModal.fieldDraft) :
  TemplateFields.cleanField
    (CreateTemplateModal.serialized (CreateTemplateModal.cleanField d))
  = if CreateTemplateModal.isSelect (CreateTemplateModal.type d)
    then inr (ThrownError "TypeError" "options.split is not a function")
    else inl (CreateTemplateModal.cleanField d).
Proof.
  destruct d as [n t o f].
  unfold TemplateFields.cleanField, CreateTemplateModal.cleanField,
    TemplateFields.isSelectType, TemplateFields.isComputedType,
    TemplateFields.splitOptions.
  simpl.
  destruct (CreateTemplateModal.isSelect t) eqn:Es,
           (String.eqb t "computed") eqn:Ec; simpl;
    try rewrite Es; try rewrite Ec; simpl;
    try reflexivity;
    destruct f as [f|]; simpl; try rewrite Es; try rewrite Ec; reflexivity.
Qed.

(** X10.  Saving a template in the edit modal without touching its
    fields: if the stored schema has a select or multiselect field,
    [handleSubmit] throws a TypeError (the stored options are an array,
    which has no [split]) and nothing is sent; otherwise the schema sent
    is the stored one. *)
Theorem edit_modal_resubmit (templateName : string)
  (drafts : list CreateTemplateModal.fieldDraft) :
  isEmpty (trim templateName) = false ->
  TemplateFields.handleSubmit templateName
    (TemplateFields.loadSchema (CreateTemplateModal.cleanFields drafts))
  = if existsb (fun d => CreateTemplateModal.isSelect
                           (CreateTemplateModal.type d)) drafts
    then TemplateFields.Failed
           (ThrownError "TypeError" "options.split is not a function")
    else TemplateFields.Sent templateName
           (CreateTemplateModal.cleanFields drafts).
Proof.
  intros Hname. unfold TemplateFields.handleSubmit. rewrite Hname.
  unfold TemplateFields.loadSchema, CreateTemplateModal.cleanFields.
  rewrite map_map.
  induction drafts as [|d drafts IH]; simpl; [reflexivity|].
  rewrite cleanField_reloaded.
  destruct (CreateTemplateModal.isSelect (CreateTemplateModal.type d)); simpl;
    [reflexivity|].
  destruct (TemplateFields.cleanFields _) as [entries|e];
    destruct (existsb _ drafts); simpl in *; congruence.
Qed.

Lemma edit_modal_resubmit_witness :
  TemplateFields.handleSubmit "Monster"
    (TemplateFields.loadSchema (CreateTemplateModal.cleanFields
       [ {| CreateTemplateModal.name := "element";
            CreateTemplateModal.type := "select";
            CreateTemplateModal.options := "Fire, Water";
            CreateTemplateModal.formula := None |} ]))
  = TemplateFields.Failed
      (ThrownError "TypeError" "options.split is not a function").
Proof.
  apply (edit_modal_resubmit "Monster"
    [ {| CreateTemplateModal.name := "element";
         CreateTemplateModal.type := "select";
         CreateTemplateModal.options := "Fire, Water";
         CreateTemplateModal.formula := None |} ]).
  reflexivity.
Defined.

Lemma trimStart_fixed (s : string) :
  (forall c rest, s = String c rest -> isWhiteSpace c = false) ->
  trimStart s = s.
Proof.
  destruct s as [|c rest]; simpl; [reflexivity|].
  intros H. now rewrite (H c rest eq_refl).
Qed.

Lemma trimEnd_idempotent (s : string) : trimEnd (trimEnd s) = trimEnd s.
Proof.
  induction s as [|c rest IH]; simpl; [reflexivity|].
  destruct (trimEnd rest) as [|c' rest'] eqn:E.
  - destruct (isWhiteSpace c) eqn:Ec; simpl; [reflexivity|]. now rewrite Ec.
  - simpl in *. now rewrite IH.
Qed.

Lemma trim_idempotent (s : string) : trim (trim s) = trim s.
Proof.
  unfold trim at 1. rewrite trimStart_fixed.
  - unfold trim. apply trimEnd_idempotent.
  - intros c rest E. destruct (trim_head s) as [H|(c' & rest' & H & Hc)];
      rewrite H in E; [discriminate|]. now injection E as <- _.
Qed.

Lemma split_comma_length (s : string) :
  List.length (split_comma s)
  = S (count_occ ascii_dec (list_ascii_of_string s) ","%char).
Proof.
  induction s as [|c rest IH]; simpl; [reflexivity|].
  destruct (Ascii.eqb c ","%char) eqn:E.
  - apply Ascii.eqb_eq in E. subst c. simpl. now rewrite IH.
  - destruct (ascii_dec c ","%char) as [->|_];
      [now rewrite Ascii.eqb_refl in E|].
    destruct (split_comma rest) as [|piece pieces]; simpl in *; congruence.
Qed.

(** X11.  The options of a select or multiselect entry: one option per
    comma of the typed text plus one, each stripped of the white space
    around it, empty options included; so an empty text gives one empty
    option, never an empty list. *)
Theorem select_options_shape (d : CreateTemplateModal.fieldDraft) :
  CreateTemplateModal.isSelect (CreateTemplateModal.type d) = true ->
  exists pieces,
    getProp (CreateTemplateModal.cleanField d) "options" = VArr pieces
    /\ List.length pieces
       = S (count_occ ascii_dec
              (list_ascii_of_string (CreateTemplateModal.options d)) ","%char)
    /\ Forall (fun piece => trim piece = piece) pieces
    /\ (CreateTemplateModal.options d = EmptyString -> pieces = [EmptyString]).
Proof.
  intros Hselect.
  exists (map trim (split_comma (CreateTemplateModal.options d))).
  split; [|split; [|split]].
  - unfold CreateTemplateModal.cleanField, CreateTemplateModal.spread.
    rewrite Hselect.
    destruct (String.eqb (CreateTemplateModal.type d) "computed"); reflexivity.
  - rewrite length_map. apply split_comma_length.
  - apply Forall_map, Forall_forall. intros piece _. apply trim_idempotent.
  - intros ->. reflexivity.
Qed.

Lemma select_options_shape_witness :
  exists pieces,
    getProp (CreateTemplateModal.cleanField
               {| CreateTemplateModal.name := "element";
                  CreateTemplateModal.type := "select";
                  CreateTemplateModal.options := " Fire, Water ,";
                  CreateTemplateModal.formula := None |}) "options"
    = VArr pieces
    /\ List.length pieces
       = S (count_occ ascii_dec (list_ascii_of_string " Fire, Water ,") ","%char)
    /\ Forall (fun piece => trim piece = piece) pieces
    /\ (" Fire, Water ," = EmptyString -> pieces = [EmptyString]).
Proof.
  apply (select_options_shape
           {| CreateTemplateModal.name := "element";
              CreateTemplateModal.type := "select";
              CreateTemplateModal.options := " Fire, Water ,";
              CreateTemplateModal.formula := None |}).
  reflexivity.
Defined.

Lemma cleanField_name_type (field entry : obj) :
  TemplateFields.cleanField field = inl entry ->
  getProp entry "name" = getProp field "name"
  /\ getProp entry "type" = getProp field "type".
Proof.
  unfold TemplateFields.cleanField, CreateTemplateModal.spread.
  destruct (TemplateFields.isSelectType _);
    [destruct (TemplateFields.splitOptions _) as [pieces|e]; [|discriminate]|];
    destruct (TemplateFields.isComputedType _); simpl;
    intros H; injection H as <-; split; reflexivity.
Qed.

(** X12.  When cleaning succeeds, the schema has one entry per field, in
    the same order, and each entry carries the field's name and type as
    they are: names are not trimmed, and blank or repeated names are
    not refused. *)
Theorem cleanFields_keeps_names (fields entries : list obj) :
  TemplateFields.cleanFields fields = inl entries ->
  List.length entries = List.length fields
  /\ forall i field entry,
       nth_error fields i = Some field ->
       nth_error entries i = Some entry ->
       getProp entry "name" = getProp field "name"
       /\ getProp entry "type" = getProp field "type".
Proof.
  revert entries. induction fields as [|f fields IH]; intros entries; simpl.
  - intros H. injection H as <-. split; [reflexivity|].
    intros [|i] field entry; discriminate.
  - destruct (TemplateFields.cleanField f) as [e|t] eqn:Ef; [|discriminate].
    destruct (TemplateFields.cleanFields fields) as [es|t]; [|discriminate].
    intros H. injection H as <-.
    destruct (IH es eq_refl) as [Hlen Hnth]. split; [simpl; now rewrite Hlen|].
    intros [|i] field entry; simpl.
    + intros Hf He. injection Hf as <-. injection He as <-.
      now apply cleanField_name_type.
    + apply Hnth.
Qed.

Lemma cleanFields_keeps_names_witness :
  List.length [ [("name", VStr " hp "); ("type", VStr "number")];
                [("name", VStr " hp "); ("type", VStr "number")] ]
  = List.length [ [("name", VStr " hp "); ("type", VStr "number");
                   ("options", VStr EmptyString)];
                  [("name", VStr " hp "); ("type", VStr "number")] ].
Proof.
  refine (proj1 (cleanFields_keeps_names
    [ [("name", VStr " hp "); ("type", VStr "number");
       ("options", VStr EmptyString)];
      [("name", VStr " hp "); ("type", VStr "number")] ]
    [ [("name", VStr " hp "); ("type", VStr "number")];
      [("name", VStr " hp "); ("type", VStr "number")] ] _)).
  reflexivity.
Defined.

(** ** CreateLocationTemplateModal *)

Section LocationTemplate.

Import CreateLocationTemplateModal.

Lemma validate_none (fields : list locationField) (i : nat) :
  validate i fields = None <-> forallb fieldOk fields = true.
Proof.
  revert i. induction fields as [|f fields IH]; intros i; simpl.
  - tauto.
  - unfold fieldOk at 1.
    destruct (Shape.isBlank (name f)); simpl; [split; discriminate|].
    destruct (lacksOptions f); simpl; [split; discriminate|].
    apply IH.
Qed.

Lemma validate_some (fields : list locationField) (i : nat) (message : string) :
  validate i fields = Some message ->
  exists j field,
    nth_error fields j = Some field
    /\ forallb fieldOk (firstn j fields) = true
    /\ fieldOk field = false
    /\ message
       = if Shape.isBlank (name field)
         then ("Field " ++ decimal (i + j + 1) ++ " needs a name")%string
         else ("Select field " ++ DQUOTE ++ name field ++ DQUOTE
                 ++ " needs at least one option")%string.
Proof.
  revert i. induction fields as [|f fields IH]; intros i; simpl;
    [discriminate|].
  destruct (Shape.isBlank (name f)) eqn:Eb.
  - intros H. injection H as <-. exists 0, f. simpl.
    unfold fieldOk. rewrite Eb. replace (i + 0 + 1) with (i + 1) by lia.
    now repeat split.
  - destruct (lacksOptions f) eqn:El.
    + intros H. injection H as <-. exists 0, f. simpl.
      unfold fieldOk. rewrite Eb, El. now repeat split.
    + intros H. destruct (IH (S i) H) as (j & field & Hnth & Hfirst & Hbad & ->).
      exists (S j), field. simpl. unfold fieldOk at 1. rewrite Eb, El. simpl.
      replace (i + S j + 1) with (S i + j + 1) by lia.
      now repeat split.
Qed.

Lemma filter_nonblank_nonempty (opts : list string) :
  forallb Shape.isBlank opts = false ->
  filter (fun opt => negb (Shape.isBlank opt)) opts <> [].
Proof.
  induction opts as [|o opts IH]; simpl; [discriminate|].
  destruct (Shape.isBlank o); simpl; [exact IH | discriminate].
Qed.

Lemma toEntry_valid (field : locationField) :
  fieldOk field = true ->
  exists entry, toEntry field = inl entry /\ entryValid entry.
Proof.
  unfold fieldOk, lacksOptions, toEntry, entryValid. intros H.
  apply andb_prop in H as [Hname Hopts].
  apply negb_true_iff in Hname, Hopts.
  assert (Hn : trim (name field) <> EmptyString).
  { unfold Shape.isBlank in Hname. intros E. now rewrite E in Hname. }
  destruct (String.eqb (type field) "select") eqn:Et.
  - simpl in Hopts. destruct (options field) as [opts|]; [|discriminate].
    apply orb_false_iff in Hopts as [_ Hall].
    eexists. split; [reflexivity|]. simpl.
    repeat split; try assumption.
    + apply trim_idempotent.
    + intros _. eexists. split; [reflexivity|]. split.
      * now apply filter_nonblank_nonempty.
      * apply Forall_forall. intros opt Hin. apply filter_In in Hin as [_ Hb].
        now apply negb_true_iff.
    + intros Hne. apply String.eqb_eq in Et. contradiction.
  - eexists. split; [reflexivity|]. simpl.
    repeat split; try assumption.
    + apply trim_idempotent.
    + intros E. apply String.eqb_neq in Et. contradiction.
Qed.

Lemma toEntries_valid (fields : list locationField) :
  forallb fieldOk fields = true ->
  exists entries,
    toEntries fields = inl entries
    /\ List.length entries = List.length fields
    /\ Forall entryValid entries.
Proof.
  induction fields as [|f fields IH]; simpl.
  - intros _. exists []. repeat split. constructor.
  - intros H. apply andb_prop in H as [Hf Hrest].
    destruct (toEntry_valid f Hf) as (e & -> & He).
    destruct (IH Hrest) as (es & -> & Hlen & Hes).
    exists (e :: es). repeat split; simpl; [now rewrite Hlen|].
    now constructor.
Qed.

(** X13.  A location template is created exactly when its name is not
    blank and every field has a non-blank name and, if it is a select
    field, at least one non-blank option; [handleSubmit] never throws
    ([filter] is only reached with an array). *)
Theorem location_template_created_iff (templateName templateDescription : string)
  (iconFile : option string) (fields : list locationField) :
  ((exists data,
      handleSubmit templateName templateDescription iconFile fields
      = Created data)
   <-> (Shape.isBlank templateName = false
        /\ forallb (fun field =>
                      negb (Shape.isBlank (name field))
                      && negb (lacksOptions field))%bool fields = true))
  /\ forall e,
       handleSubmit templateName templateDescription iconFile fields
       <> Failed e.
Proof.
  unfold handleSubmit.
  destruct (Shape.isBlank templateName).
  - split; [split|]; [intros [data H]; discriminate | intros [H _];
      discriminate | discriminate].
  - destruct (validate 0 fields) as [message|] eqn:Ev.
    + split; [split|]; [intros [data H]; discriminate | | discriminate].
      intros [_ H]. apply (validate_none fields 0) in H. congruence.
    + apply validate_none in Ev.
      destruct (toEntries_valid fields Ev) as (entries & -> & _ & _).
      split; [split|]; [| |discriminate].
      * intros _. split; [reflexivity | exact Ev].
      * intros _. eexists. reflexivity.
Qed.

(** X14.  What a created location template holds: the trimmed name and
    description, and one schema entry per field, each with a non-empty
    name without white space around it; a select entry has at least one
    option and no blank option, every other entry has no options at
    all. *)
Theorem location_template_schema_valid (templateName templateDescription : string)
  (iconFile : option string) (fields : list locationField)
  (data : templateData) :
  handleSubmit templateName templateDescription iconFile fields = Created data ->
  template_name data = trim templateName
  /\ template_name data <> EmptyString
  /\ description data = trim templateDescription
  /\ List.length (schema data) = List.length fields
  /\ Forall (fun entry =>
       entry_name entry <> EmptyString
       /\ trim (entry_name entry) = entry_name entry
       /\ (entry_type entry = "select" ->
           exists opts, entry_options entry = Some opts
                        /\ opts <> []
                        /\ Forall (fun opt => Shape.isBlank opt = false) opts)
       /\ (entry_type entry <> "select" -> entry_options entry = None))
     (schema data).
Proof.
  unfold handleSubmit.
  destruct (Shape.isBlank templateName) eqn:En; [discriminate|].
  destruct (validate 0 fields) as [message|] eqn:Ev; [discriminate|].
  apply validate_none in Ev.
  destruct (toEntries_valid fields Ev) as (entries & -> & Hlen & Hvalid).
  intros H. injection H as <-. simpl.
  repeat split; try assumption.
  unfold Shape.isBlank in En. intros E. now rewrite E in En.
Qed.

(** X15.  The alert of a refused location template is about the first
    field that fails: all fields before it pass, and the text is the
    one for a missing name, with the field's position counted from 1,
    or else the one for missing options, with the field's name. *)
Theorem location_template_first_failure (fields : list locationField)
  (message : string) :
  validate 0 fields = Some message ->
  exists j field,
    nth_error fields j = Some field
    /\ forallb (fun f => negb (Shape.isBlank (name f))
                         && negb (lacksOptions f))%bool (firstn j fields)
       = true
    /\ (negb (Shape.isBlank (name field)) && negb (lacksOptions field))%bool
       = false
    /\ message
       = if Shape.isBlank (name field)
         then ("Field " ++ decimal (j + 1) ++ " needs a name")%string
         else ("Select field " ++ DQUOTE ++ name field ++ DQUOTE
                 ++ " needs at least one option")%string.
Proof.
  intros H. destruct (validate_some fields 0 message H)
    as (j & field & Hnth & Hfirst & Hbad & Hmsg).
  exists j, field. now repeat split.
Qed.

End LocationTemplate.

Lemma location_template_schema_valid_witness :
  CreateLocationTemplateModal.template_name
    {| CreateLocationTemplateModal.template_name := "Town";
       CreateLocationTemplateModal.description := "A small town";
       CreateLocationTemplateModal.schema :=
         [ {| CreateLocationTemplateModal.entry_name := "kind";
              CreateLocationTemplateModal.entry_type := "select";
              CreateLocationTemplateModal.entry_required := false;
              CreateLocationTemplateModal.entry_options := Some ["port"] |} ];
       CreateLocationTemplateModal.icon_url := EmptyString |}
  = trim " Town ".
Proof.
  refine (proj1 (location_template_schema_valid " Town " "A small town " None
    [ {| CreateLocationTemplateModal.name := " kind";
         CreateLocationTemplateModal.type := "select";
         CreateLocationTemplateModal.required := None;
         CreateLocationTemplateModal.options := Some ["  "; "port"] |} ]
    _ _)).
  reflexivity.
Defined.

Lemma location_template_first_failure_witness :
  exists j field,
    nth_error
      [ {| CreateLocationTemplateModal.name := "kind";
           CreateLocationTemplateModal.type := "text";
           CreateLocationTemplateModal.required := None;
           CreateLocationTemplateModal.options := Some [] |};
        {| CreateLocationTemplateModal.name := "  ";
           CreateLocationTemplateModal.type := "text";
           CreateLocationTemplateModal.required := None;
           CreateLocationTemplateModal.options := Some [] |} ] j
    = Some field
    /\ forallb (fun f =>
          negb (Shape.isBlank (CreateLocationTemplateModal.name f))
          && negb (CreateLocationTemplateModal.lacksOptions f))%bool
         (firstn j
            [ {| CreateLocationTemplateModal.name := "kind";
                 CreateLocationTemplateModal.type := "text";
                 CreateLocationTemplateModal.required := None;
                 CreateLocationTemplateModal.options := Some [] |};
              {| CreateLocationTemplateModal.name := "  ";
                 CreateLocationTemplateModal.type := "text";
                 CreateLocationTemplateModal.required := None;
                 CreateLocationTemplateModal.options := Some [] |} ])
       = true
    /\ (negb (Shape.isBlank (CreateLocationTemplateModal.name field))
        && negb (CreateLocationTemplateModal.lacksOptions field))%bool = false
    /\ "Field 2 needs a name"
       = if Shape.isBlank (CreateLocationTemplateModal.name field)
         then ("Field " ++ CreateLocationTemplateModal.decimal (j + 1)
                 ++ " needs a name")%string
         else ("Select field " ++ DQUOTE
                 ++ CreateLocationTemplateModal.name field ++ DQUOTE
                 ++ " needs at least one option")%string.
Proof.
  apply (location_template_first_failure
    [ {| CreateLocationTemplateModal.name := "kind";
         CreateLocationTemplateModal.type := "text";
         CreateLocationTemplateModal.required := None;
         CreateLocationTemplateModal.options := Some [] |};
      {| CreateLocationTemplateModal.name := "  ";
         CreateLocationTemplateModal.type := "text";
         CreateLocationTemplateModal.required := None;
         CreateLocationTemplateModal.options := Some [] |} ]
    "Field 2 needs a name").
  reflexivity.
Defined.

(** ** Objects stay in enumeration order *)

Lemma precedes_asymmetric (k k' : string) :
  precedes k k' = true -> precedes k' k = false.
Proof.
  unfold precedes.
  destruct (arrayIndex k) as [a|], (arrayIndex k') as [b|]; try discriminate;
    try reflexivity.
  intros H. apply N.ltb_lt in H. apply N.ltb_ge. lia.
Qed.

Lemma precedes_carries (k k' k'' : string) :
  precedes k k' = true -> precedes k'' k' = false -> precedes k'' k = false.
Proof.
  unfold precedes.
  destruct (arrayIndex k) as [a|], (arrayIndex k') as [b|],
           (arrayIndex k'') as [c|]; try discriminate; try reflexivity.
  intros H1 H2. apply N.ltb_lt in H1. apply N.ltb_ge in H2.
  apply N.ltb_ge. lia.
Qed.

Lemma forallb_setProp (q : string -> bool) (o : obj) (k : string) (v : value) :
  forallb (fun kv => q (fst kv)) o = true ->
  q k = true ->
  forallb (fun kv => q (fst kv)) (setProp o k v) = true.
Proof.
  intros Ho Hk. induction o as [|[k' v'] o IH]; simpl in *.
  - now rewrite Hk.
  - apply andb_prop in Ho as [Hk' Ho'].
    destruct (String.eqb k k'); simpl.
    + now rewrite Hk, Ho'.
    + destruct (precedes k k'); simpl.
      * now rewrite Hk, Hk', Ho'.
      * now rewrite Hk', IH.
Qed.

Lemma inOrder_setProp (o : obj) (k : string) (v : value) :
  Shape.inOrder o = true -> Shape.inOrder (setProp o k v) = true.
Proof.
  induction o as [|[k' v'] o IH]; simpl; [reflexivity|].
  intros H. apply andb_prop in H as [Hafter Ho].
  destruct (String.eqb k k') eqn:E.
  - apply String.eqb_eq in E. subst k'. simpl. now rewrite Hafter, Ho.
  - destruct (precedes k k') eqn:P.
    + simpl. rewrite String.eqb_sym, E, (precedes_asymmetric _ _ P). simpl.
      rewrite Hafter, Ho, !andb_true_r.
      apply forallb_forall. intros [k'' v''] Hin. simpl.
      rewrite forallb_forall in Hafter. specialize (Hafter _ Hin).
      simpl in Hafter. apply andb_prop in Hafter as [_ Hp].
      apply negb_true_iff in Hp.
      rewrite (precedes_carries _ _ _ P Hp). simpl. rewrite andb_true_r.
      apply negb_true_iff. apply String.eqb_neq. intros ->. congruence.
    + simpl. rewrite (IH Ho), andb_true_r.
      apply (forallb_setProp
               (fun key => negb (String.eqb key k') && negb (precedes key k'))%bool);
        [exact Hafter|].
      now rewrite E, P.
Qed.

Lemma setProp_appends (pre : obj) (k : string) (v : value) :
  forallb (fun kv => negb (String.eqb k (fst kv))
                     && negb (precedes k (fst kv)))%bool pre = true ->
  setProp pre k v = pre ++ [(k, v)].
Proof.
  induction pre as [|[k' v'] pre IH]; simpl; [reflexivity|].
  intros H. apply andb_prop in H as [Hk Hpre]. apply andb_prop in Hk as [He Hp].
  apply negb_true_iff in He, Hp. rewrite He, Hp. now rewrite IH.
Qed.

Lemma getProp_after (pre post : obj) (k : string) (v : value) :
  forallb (fun kv => negb (String.eqb k (fst kv))
                     && negb (precedes k (fst kv)))%bool pre = true ->
  getProp (pre ++ (k, v) :: post) k = v.
Proof.
  induction pre as [|[k' v'] pre IH]; simpl.
  - now rewrite String.eqb_refl.
  - intros H. apply andb_prop in H as [Hk Hpre]. apply andb_prop in Hk as [He _].
    apply negb_true_iff in He. rewrite He. now apply IH.
Qed.

Lemma inOrder_before (pre post : obj) (k : string) (v : value) :
  Shape.inOrder (pre ++ (k, v) :: post) = true ->
  forallb (fun kv => negb (String.eqb k (fst kv))
                     && negb (precedes k (fst kv)))%bool pre = true.
Proof.
  induction pre as [|[k' v'] pre IH]; simpl; [reflexivity|].
  intros H. apply andb_prop in H as [Hafter Hrest].
  rewrite forallb_app in Hafter. apply andb_prop in Hafter as [_ Hk].
  simpl in Hk. apply andb_prop in Hk as [Hk _].
  rewrite Hk. simpl. now apply IH.
Qed.

Lemma copy_in_order (o : obj) (post pre : obj) :
  o = pre ++ post ->
  Shape.inOrder o = true ->
  fold_left (fun context key => setProp context key (getProp o key))
            (ownKeys post) pre
  = o.
Proof.
  revert pre. induction post as [|[k v] post IH]; intros pre Ho Hin; simpl.
  - now rewrite Ho, app_nil_r.
  - assert (Hpre := Hin). rewrite Ho in Hpre. apply inOrder_before in Hpre.
    assert (Hget : getProp o k = v) by (rewrite Ho; now apply getProp_after).
    rewrite Hget, (setProp_appends pre k v Hpre).
    apply IH; [|exact Hin]. now rewrite <- app_assoc.
Qed.

(** X16.  The context handed to a formula is a copy of [finalData]:
    every name reads the same in both and is present in both alike;
    and for an object in enumeration order the copy is exact, same
    names in the same order, so the generated text declares one [const]
    per entry of [finalData], in that order. *)
Theorem makeContext_copies (finalData : obj) :
  (forall k, getProp (makeContext finalData) k = getProp finalData k
             /\ hasProp (makeContext finalData) k = hasProp finalData k)
  /\ (Shape.inOrder finalData = true ->
      makeContext finalData = finalData
      /\ forall clean,
           functionBody (makeContext finalData) clean
           = functionBody finalData clean).
Proof.
  split.
  - intros k. split; [apply makeContext_getProp | apply makeContext_hasProp].
  - intros Hin.
    assert (H : makeContext finalData = finalData)
      by (unfold makeContext; now apply copy_in_order).
    split; [exact H|]. intros clean. now rewrite H.
Qed.

Lemma makeContext_copies_witness :
  makeContext [("2", VNull); ("10", VNull); ("b", VStr "x"); ("a", VNull)]
  = [("2", VNull); ("10", VNull); ("b", VStr "x"); ("a", VNull)].
Proof.
  refine (proj1 (proj2 (makeContext_copies
            [("2", VNull); ("10", VNull); ("b", VStr "x"); ("a", VNull)]) _)).
  reflexivity.
Defined.

Lemma inPlace_cons (arrays : obj) (k : string) (v : value) (o : obj) :
  inPlace arrays ((k, v) :: o)
  = (k, match v, getProp arrays k with
        | VArr _, VArr items => VArr items
        | _, _ => v
        end) :: inPlace arrays o.
Proof.
  unfold inPlace. simpl. destruct v; try reflexivity.
  now destruct (getProp arrays k).
Qed.

Lemma forallb_inPlace (q : string -> bool) (arrays o : obj) :
  forallb (fun kv => q (fst kv)) (inPlace arrays o)
  = forallb (fun kv => q (fst kv)) o.
Proof.
  induction o as [|[k v] o IH]; [reflexivity|].
  rewrite inPlace_cons. simpl. now rewrite IH.
Qed.

(** Changing arrays in place moves no name. *)
Lemma inOrder_inPlace (arrays o : obj) :
  Shape.inOrder (inPlace arrays o) = Shape.inOrder o.
Proof.
  induction o as [|[k v] o IH]; [reflexivity|].
  rewrite inPlace_cons. simpl. rewrite IH.
  now rewrite (forallb_inPlace
                 (fun key => negb (String.eqb key k) && negb (precedes key k))%bool).
Qed.

Lemma forEach_inOrder {World : Type}
  (newFunction : host World)
  (schema : list FieldSchema) (st : passState World) :
  Shape.inOrder (finalData st) = true ->
  Shape.inOrder (finalData (stateOf (forEach newFunction schema st))) = true.
Proof.
  revert st. induction schema as [|f schema IH]; intros st Hin; simpl;
    [exact Hin|].
  assert (Hstep : Shape.inOrder
                    (finalData (stateOf (evaluateField newFunction st f))) = true).
  { unfold evaluateField. destruct (isEvaluated f); [|exact Hin].
    destruct (compute newFunction st f) as [[[v|e] arrays] w]; simpl.
    - apply inOrder_setProp. now rewrite inOrder_inPlace.
    - destruct (messageOf e); simpl;
        [apply inOrder_setProp|]; now rewrite inOrder_inPlace. }
  destruct (evaluateField newFunction st f) as [st1|e st1]; simpl in *.
  - now apply IH.
  - exact Hstep.
Qed.

(** X17.  An object in enumeration order (no name twice, array-index
    names first and ascending) stays so under [handleChange], under the
    ticking of an option, and through the whole evaluation pass, however
    the pass ends. *)
Theorem form_data_stays_in_order {World : Type}
  (newFunction : host World)
  (formData : obj) :
  Shape.inOrder formData = true ->
  (forall field v,
     Shape.inOrder (CreateEntityForm.handleChange formData field v) = true)
  /\ (forall fieldKey opt checked,
        Shape.inOrder
          (CreateEntityForm.toggleOption formData fieldKey opt checked) = true)
  /\ (forall schema w,
        Shape.inOrder
          (finalData (stateOf (evaluateComputed newFunction schema formData w)))
        = true).
Proof.
  intros Hin. repeat split.
  - intros field v. now apply inOrder_setProp.
  - intros fieldKey opt checked. now apply inOrder_setProp.
  - intros schema w. unfold evaluateComputed. now apply forEach_inOrder.
Qed.

Lemma form_data_stays_in_order_witness :
  Shape.inOrder
    (finalData (stateOf
       (evaluateComputed MiniJs.newFunction upstreamSchema
          [("7", VNull); ("level", VNum (NInt 3))] [])))
  = true.
Proof.
  refine (proj2 (proj2 (form_data_stays_in_order MiniJs.newFunction
            [("7", VNull); ("level", VNum (NInt 3))] _)) upstreamSchema []).
  reflexivity.
Defined.

(** ** What the pass writes, and how often it calls the host *)

Section PassExtras.

Context {World : Type}.
Variable newFunction : host World.

Lemma evaluateField_calls (st : passState (World * list string))
  (f : FieldSchema) :
  calls (world (stateOf (evaluateField (recording newFunction) st f)))
  = calls (world st)
    ++ (if isEvaluated f
        then [functionBody (makeContext (finalData st))
                (cleanFormula (formulaText f))]
        else []).
Proof.
  unfold evaluateField, compute, recording, calls.
  destruct (isEvaluated f); simpl; [|now rewrite app_nil_r].
  destruct (newFunction _ _ _ _) as [[[v|e] arrays] w1]; simpl; [reflexivity|].
  destruct (messageOf e); reflexivity.
Qed.

Lemma forEach_calls (schema : list FieldSchema)
  (st : passState (World * list string)) :
  exists bodies,
    calls (world (stateOf (forEach (recording newFunction) schema st)))
    = calls (world st) ++ bodies
    /\ List.length bodies <= List.length (filter isEvaluated schema)
    /\ (escaped (forEach (recording newFunction) schema st) = None ->
        List.length bodies = List.length (filter isEvaluated schema)).
Proof.
  revert st. induction schema as [|f schema IH]; intros st; simpl.
  - exists []. rewrite app_nil_r. repeat split; auto.
  - pose proof (evaluateField_calls st f) as Hstep.
    destruct (evaluateField (recording newFunction) st f) as [st1|e st1];
      simpl in *.
    + destruct (IH st1) as (bodies & Hcalls & Hle & Heq).
      rewrite Hcalls, Hstep, <- app_assoc.
      eexists. split; [reflexivity|].
      destruct (isEvaluated f); simpl; split; try lia; intros H;
        rewrite (Heq H); reflexivity.
    + rewrite Hstep. eexists. split; [reflexivity|].
      destruct (isEvaluated f); simpl; split; try lia; discriminate.
Qed.

End PassExtras.

(** X18.  After a pass that ran to its end, the names present in
    [finalData] are exactly those of the input field-value map and those
    of the computed fields that have a formula: a computed field without
    a formula gets no entry, and nothing else is added or removed. *)
Theorem pass_entries_are_input_and_computed {World : Type}
  (newFunction : host World)
  (schema : list FieldSchema) (formData : obj) (w : World)
  (final : passState World) (k : string) :
  evaluateComputed newFunction schema formData w = Normal final ->
  hasProp (finalData final) k
  = (hasProp formData k
     || existsb (fun f => isEvaluated f && String.eqb k (name f)) schema)%bool.
Proof.
  intros H. unfold evaluateComputed in H.
  now rewrite (forEach_keys newFunction schema _ final k H).
Qed.

Lemma pass_entries_are_input_and_computed_witness :
  hasProp [("level", VNum (NInt 3)); ("x", VStr "ERROR: c is not defined");
           ("z", VNum NNaN)] "z"
  = (hasProp [("level", VNum (NInt 3))] "z"
     || existsb (fun f => isEvaluated f && String.eqb "z" (name f))
                upstreamSchema)%bool.
Proof.
  apply (pass_entries_are_input_and_computed MiniJs.newFunction upstreamSchema
           [("level", VNum (NInt 3))] []
           {| finalData := [("level", VNum (NInt 3));
                            ("x", VStr "ERROR: c is not defined");
                            ("z", VNum NNaN)];
              error := Some (errorText "x" "c is not defined");
              world := [] |} "z").
  vm_compute. reflexivity.
Defined.

(** X19.  The pass calls the host at most once for each computed field
    that has a formula and never for another field; when it runs to its
    end, it has called the host exactly once for each such field. *)
Theorem host_called_once_per_computed_field {World : Type}
  (newFunction : host World)
  (schema : list FieldSchema) (formData : obj) (w : World) :
  List.length (calls (world (stateOf
     (evaluateComputed (recording newFunction) schema formData (w, [])))))
  <= List.length (filter isEvaluated schema)
  /\ (escaped (evaluateComputed (recording newFunction) schema formData (w, []))
      = None ->
      List.length (calls (world (stateOf
         (evaluateComputed (recording newFunction) schema formData (w, [])))))
      = List.length (filter isEvaluated schema)).
Proof.
  unfold evaluateComputed.
  destruct (forEach_calls newFunction schema (initialState formData (w, [])))
    as (bodies & Hcalls & Hle & Heq).
  rewrite Hcalls. simpl. split; [exact Hle | exact Heq].
Qed.

Lemma host_called_once_per_computed_field_witness :
  List.length (calls (world (stateOf
     (evaluateComputed (recording MiniJs.newFunction) mixedSchema
        [("n", VNum (NInt 4))] ([], [])))))
  = List.length (filter isEvaluated mixedSchema).
Proof.
  apply (proj2 (host_called_once_per_computed_field MiniJs.newFunction
                  mixedSchema [("n", VNum (NInt 4))] [])).
  vm_compute. reflexivity.
Defined.

(** ** Cleaning of formulas, continued *)

Lemma hasLineComment_cons (c : ascii) (rest : string) :
  Shape.hasLineComment (String c rest) = false ->
  Shape.hasLineComment rest = false
  /\ (Ascii.eqb c "/"%char = true -> Shape.startsWithSlash rest = false).
Proof.
  simpl. intros H. apply orb_false_iff in H as [H1 H2]. split; [exact H2|].
  intros E. now rewrite E in H1.
Qed.

Lemma hasLineComment_join (c : ascii) (rest : string) :
  Shape.hasLineComment rest = false ->
  (Ascii.eqb c "/"%char = true -> Shape.startsWithSlash rest = false) ->
  Shape.hasLineComment (String c rest) = false.
Proof.
  intros H1 H2. simpl. rewrite H1, orb_false_r.
  destruct (Ascii.eqb c "/"%char); [now rewrite H2 | reflexivity].
Qed.

Lemma slash_is_no_terminator (c : ascii) :
  isLineTerminator c = true -> Ascii.eqb c "/"%char = false.
Proof.
  destruct (Ascii.eqb c "/"%char) eqn:E; [|reflexivity].
  apply Ascii.eqb_eq in E. subst c. discriminate.
Qed.

Lemma removeLineComments_head (s : string) :
  Shape.startsWithSlash (removeLineComments false s) = true ->
  Shape.startsWithSlash s = true.
Proof.
  destruct s as [|c [|c2 rest]]; simpl; try (intros H; exact H).
  intros H. destruct (Ascii.eqb c "/"%char) eqn:E; [reflexivity|].
  simpl in H. congruence.
Qed.

Lemma removeLineComments_clean (s : string) :
  forall inComment,
    Shape.hasLineComment (removeLineComments inComment s) = false.
Proof.
  induction s as [|c rest IH]; intros inComment; [reflexivity|].
  destruct inComment.
  - simpl. destruct (isLineTerminator c) eqn:Et; [|apply IH].
    apply hasLineComment_join; [apply IH|].
    intros E. now rewrite (slash_is_no_terminator c Et) in E.
  - destruct rest as [|c2 rest2]; [simpl; now rewrite andb_false_r|].
    change (removeLineComments false (String c (String c2 rest2)))
      with (if (Ascii.eqb c "/"%char && Ascii.eqb c2 "/"%char)%bool
            then removeLineComments true (String c2 rest2)
            else String c (removeLineComments false (String c2 rest2))).
    destruct (Ascii.eqb c "/"%char && Ascii.eqb c2 "/"%char)%bool eqn:E;
      [apply IH|].
    apply hasLineComment_join; [apply IH|].
    intros Ec. rewrite Ec in E. simpl in E.
    destruct (Shape.startsWithSlash (removeLineComments false (String c2 rest2)))
      eqn:Eh; [|reflexivity].
    apply removeLineComments_head in Eh. simpl in Eh. congruence.
Qed.

Lemma removeBlockComments_head (s : string) :
  Shape.startsWithSlash (removeBlockComments false s) = true ->
  Shape.startsWithSlash s = true.
Proof.
  destruct s as [|c [|c2 rest]]; simpl; try (intros H; exact H).
  intros H. destruct (Ascii.eqb c "/"%char) eqn:E; [reflexivity|].
  simpl in H. congruence.
Qed.

Lemma removeBlockComments_clean (n : nat) :
  forall s inBlock,
    String.length s <= n ->
    Shape.hasLineComment s = false ->
    Shape.hasLineComment (removeBlockComments inBlock s) = false.
Proof.
  induction n as [|n IH]; intros s inBlock Hlen Hs.
  - destruct s; [|simpl in Hlen; lia]. reflexivity.
  - destruct s as [|c [|c2 rest2]]; [reflexivity| |].
    + simpl. destruct inBlock; [reflexivity|]. simpl. now rewrite andb_false_r.
    + apply hasLineComment_cons in Hs as [Hrest Hc].
      pose proof (hasLineComment_cons _ _ Hrest) as [Hrest2 _].
      simpl in Hlen.
      change (removeBlockComments inBlock (String c (String c2 rest2)))
        with (if inBlock then
                if (Ascii.eqb c "*"%char && Ascii.eqb c2 "/"%char)%bool
                then removeBlockComments false rest2
                else removeBlockComments true (String c2 rest2)
              else
                if (Ascii.eqb c "/"%char && Ascii.eqb c2 "*"%char
                    && hasBlockEnd rest2)%bool
                then removeBlockComments true rest2
                else String c (removeBlockComments false (String c2 rest2))).
      destruct inBlock.
      * destruct (Ascii.eqb c "*"%char && Ascii.eqb c2 "/"%char)%bool.
        -- apply IH; [lia | exact Hrest2].
        -- apply IH; [simpl; lia | exact Hrest].
      * destruct (Ascii.eqb c "/"%char && Ascii.eqb c2 "*"%char
                  && hasBlockEnd rest2)%bool.
        -- apply IH; [lia | exact Hrest2].
        -- apply hasLineComment_join.
           ++ apply IH; [simpl; lia | exact Hrest].
           ++ intros Ec.
              destruct (Shape.startsWithSlash
                          (removeBlockComments false (String c2 rest2))) eqn:Eh;
                [|reflexivity].
              apply removeBlockComments_head in Eh.
              rewrite (Hc Ec) in Eh. discriminate.
Qed.

Lemma removeLeadingBlankLines_clean (s : string) :
  forall atLineStart skip,
    Shape.hasLineComment s = false ->
    Shape.hasLineComment (removeLeadingBlankLines atLineStart skip s) = false
    /\ (atLineStart = false -> skip = 0 ->
        Shape.startsWithSlash (removeLeadingBlankLines atLineStart skip s) = true ->
        Shape.startsWithSlash s = true).
Proof.
  induction s as [|c rest IH]; intros atLineStart skip Hs.
  - split; [reflexivity | intros _ _ H; exact H].
  - apply hasLineComment_cons in Hs as [Hrest Hc].
    destruct skip as [|k].
    + change (removeLeadingBlankLines atLineStart 0 (String c rest))
        with (match (if atLineStart then blankThroughLF (String c rest) else None)
              with
              | Some (S k) => removeLeadingBlankLines (isLineTerminator c) k rest
              | _ => String c (removeLeadingBlankLines (isLineTerminator c) 0 rest)
              end).
      assert (Hkeep :
        Shape.hasLineComment
          (String c (removeLeadingBlankLines (isLineTerminator c) 0 rest)) = false).
      { apply hasLineComment_join; [now apply IH|].
        intros Ec.
        destruct (Shape.startsWithSlash
                    (removeLeadingBlankLines (isLineTerminator c) 0 rest)) eqn:Eh;
          [|reflexivity].
        destruct (isLineTerminator c) eqn:Et;
          [now rewrite (slash_is_no_terminator c Et) in Ec|].
        destruct (IH false 0 Hrest) as [_ Hhead].
        rewrite (Hhead eq_refl eq_refl Eh) in Hc. now specialize (Hc Ec). }
      destruct atLineStart.
      * split; [|discriminate].
        destruct (blankThroughLF (String c rest)) as [[|k]|];
          [exact Hkeep | now apply IH | exact Hkeep].
      * split; [exact Hkeep|]. intros _ _ H. exact H.
    + change (removeLeadingBlankLines atLineStart (S k) (String c rest))
        with (removeLeadingBlankLines (isLineTerminator c) k rest).
      split; [now apply IH | discriminate].
Qed.


Lemma blankToLineEnd_stops (s : string) :
  forall k, blankToLineEnd s = Some k -> Shape.atLineEnd (drop k s) = true.
Proof.
  induction s as [|c rest IH]; intros k; simpl.
  - intros H. injection H as <-. reflexivity.
  - destruct (isWhiteSpace c); [|discriminate].
    destruct (blankToLineEnd rest) as [k'|].
    + intros H. injection H as <-. simpl. now apply IH.
    + destruct (isLineTerminator c) eqn:Et; [|discriminate].
      intros H. injection H as <-. exact Et.
Qed.

Lemma removeTrailingBlankLines_head (s : string) :
  forall skip,
    Shape.atLineEnd (drop skip s) = true ->
    Shape.startsWithSlash (removeTrailingBlankLines skip s) = false.
Proof.
  induction s as [|c rest IH]; intros skip Hstop; [reflexivity|].
  destruct skip as [|k].
  - simpl in Hstop.
    change (removeTrailingBlankLines 0 (String c rest))
      with (match (if isLF c then blankToLineEnd rest else None) with
            | Some k => removeTrailingBlankLines k rest
            | None => String c (removeTrailingBlankLines 0 rest)
            end).
    destruct (if isLF c then blankToLineEnd rest else None) as [k|] eqn:E.
    + apply IH. destruct (isLF c); [|discriminate].
      now apply blankToLineEnd_stops.
    + simpl. now apply slash_is_no_terminator.
  - change (removeTrailingBlankLines (S k) (String c rest))
      with (removeTrailingBlankLines k rest).
    apply IH. exact Hstop.
Qed.

Lemma removeTrailingBlankLines_clean (s : string) :
  forall skip,
    Shape.hasLineComment s = false ->
    Shape.hasLineComment (removeTrailingBlankLines skip s) = false
    /\ (skip = 0 ->
        Shape.startsWithSlash (removeTrailingBlankLines skip s) = true ->
        Shape.startsWithSlash s = true).
Proof.
  induction s as [|c rest IH]; intros skip Hs.
  - split; [reflexivity | intros _ H; exact H].
  - apply hasLineComment_cons in Hs as [Hrest Hc].
    destruct skip as [|k].
    + change (removeTrailingBlankLines 0 (String c rest))
        with (match (if isLF c then blankToLineEnd rest else None) with
              | Some k => removeTrailingBlankLines k rest
              | None => String c (removeTrailingBlankLines 0 rest)
              end).
      destruct (if isLF c then blankToLineEnd rest else None) as [k|] eqn:E.
      * split; [now apply IH|]. intros _ H.
        rewrite removeTrailingBlankLines_head in H; [discriminate|].
        destruct (isLF c); [|discriminate]. now apply blankToLineEnd_stops.
      * split; [|intros _ H; exact H].
        apply hasLineComment_join; [now apply IH|].
        intros Ec.
        destruct (Shape.startsWithSlash (removeTrailingBlankLines 0 rest)) eqn:Eh;
          [|reflexivity].
        destruct (IH 0 Hrest) as [_ Hhead].
        rewrite (Hhead eq_refl Eh) in Hc. now specialize (Hc Ec).
    + change (removeTrailingBlankLines (S k) (String c rest))
        with (removeTrailingBlankLines k rest).
      split; [now apply IH | discriminate].
Qed.

Lemma trimStart_clean (s : string) :
  Shape.hasLineComment s = false -> Shape.hasLineComment (trimStart s) = false.
Proof.
  induction s as [|c rest IH]; [reflexivity|].
  intros Hs. change (trimStart (String c rest))
    with (if isWhiteSpace c then trimStart rest else String c rest).
  destruct (isWhiteSpace c); [|exact Hs].
  apply IH. now apply hasLineComment_cons in Hs.
Qed.

Lemma trimEnd_headed (s : string) :
  Shape.startsWithSlash (trimEnd s) = true -> Shape.startsWithSlash s = true.
Proof.
  destruct s as [|c rest]; simpl; [intros H; exact H|].
  destruct (trimEnd rest); [destruct (isWhiteSpace c)|]; simpl;
    intros H; try discriminate; exact H.
Qed.

Lemma trimEnd_clean (s : string) :
  Shape.hasLineComment s = false -> Shape.hasLineComment (trimEnd s) = false.
Proof.
  induction s as [|c rest IH]; [reflexivity|].
  intros Hs. apply hasLineComment_cons in Hs as [Hrest Hc].
  specialize (IH Hrest).
  change (trimEnd (String c rest))
    with (match trimEnd rest with
          | EmptyString =>
              if isWhiteSpace c then EmptyString else String c EmptyString
          | r => String c r
          end).
  destruct (trimEnd rest) as [|c' rest'] eqn:E.
  - destruct (isWhiteSpace c); [reflexivity|]. simpl. now rewrite andb_false_r.
  - apply hasLineComment_join; [exact IH|].
    intros Ec.
    destruct (Shape.startsWithSlash (String c' rest')) eqn:Eh; [|reflexivity].
    rewrite <- E in Eh. apply trimEnd_headed in Eh.
    rewrite (Hc Ec) in Eh. discriminate.
Qed.

(** X20.  The last replace of the cleaning (line 42) never changes
    anything: the cleaned formula is the trimmed result of the four
    replaces before it, and so has no white space at either end. *)
Theorem cleanFormula_is_trimmed (formula : string) :
  cleanFormula formula
  = trim (removeTrailingBlankLines 0
            (removeLeadingBlankLines true 0
               (removeBlockComments false
                  (removeLineComments false formula))))
  /\ trim (cleanFormula formula) = cleanFormula formula.
Proof.
  assert (H : cleanFormula formula
              = trim (removeTrailingBlankLines 0
                        (removeLeadingBlankLines true 0
                           (removeBlockComments false
                              (removeLineComments false formula)))))
    by (unfold cleanFormula; apply removeFirstBlankLine_after_trim).
  split; [exact H|]. rewrite H. apply trim_idempotent.
Qed.

(** X21.  The cleaned formula never contains [//], whatever the
    formula: every line comment is gone, and no step of the cleaning
    brings two slashes together. *)
Theorem cleanFormula_has_no_line_comment (formula : string) :
  Shape.hasLineComment (cleanFormula formula) = false.
Proof.
  destruct (cleanFormula_is_trimmed formula) as [-> _].
  unfold trim. apply trimEnd_clean, trimStart_clean.
  apply removeTrailingBlankLines_clean.
  apply removeLeadingBlankLines_clean.
  apply (removeBlockComments_clean
           (String.length (removeLineComments false formula))); [lia|].
  apply removeLineComments_clean.
Qed.

Lemma removeLineComments_none (s : string) :
  Shape.hasLineComment s = false -> removeLineComments false s = s.
Proof.
  induction s as [|c rest IH]; [reflexivity|].
  intros Hs. apply hasLineComment_cons in Hs as [Hrest Hc].
  destruct rest as [|c2 rest2]; [reflexivity|].
  change (removeLineComments false (String c (String c2 rest2)))
    with (if (Ascii.eqb c "/"%char && Ascii.eqb c2 "/"%char)%bool
          then removeLineComments true (String c2 rest2)
          else String c (removeLineComments false (String c2 rest2))).
  destruct (Ascii.eqb c "/"%char) eqn:Ec; simpl andb.
  - specialize (Hc eq_refl). simpl in Hc. rewrite Hc. now rewrite (IH Hrest).
  - now rewrite (IH Hrest).
Qed.

Lemma removeBlockComments_none (s : string) :
  Shape.hasBlockStart s = false -> removeBlockComments false s = s.
Proof.
  induction s as [|c rest IH]; [reflexivity|].
  simpl Shape.hasBlockStart. intros Hs.
  apply orb_false_iff in Hs as [Hc Hrest].
  destruct rest as [|c2 rest2]; [reflexivity|].
  change (removeBlockComments false (String c (String c2 rest2)))
    with (if (Ascii.eqb c "/"%char && Ascii.eqb c2 "*"%char
              && hasBlockEnd rest2)%bool
          then removeBlockComments true rest2
          else String c (removeBlockComments false (String c2 rest2))).
  simpl in Hc. rewrite Hc, andb_false_l. now rewrite (IH Hrest).
Qed.

Lemma blankThroughLF_none (s : string) :
  Shape.hasLineFeed s = false -> blankThroughLF s = None.
Proof.
  induction s as [|c rest IH]; simpl; [reflexivity|].
  intros H. apply orb_false_iff in H as [Hc Hrest].
  rewrite (IH Hrest), Hc. now destruct (isWhiteSpace c).
Qed.

Lemma removeLeadingBlankLines_none (s : string) :
  forall atLineStart,
    Shape.hasLineFeed s = false ->
    removeLeadingBlankLines atLineStart 0 s = s.
Proof.
  induction s as [|c rest IH]; intros atLineStart Hs; [reflexivity|].
  change (removeLeadingBlankLines atLineStart 0 (String c rest))
    with (match (if atLineStart then blankThroughLF (String c rest) else None)
          with
          | Some (S k) => removeLeadingBlankLines (isLineTerminator c) k rest
          | _ => String c (removeLeadingBlankLines (isLineTerminator c) 0 rest)
          end).
  rewrite (blankThroughLF_none _ Hs).
  simpl in Hs. apply orb_false_iff in Hs as [_ Hrest].
  rewrite (IH _ Hrest). now destruct atLineStart.
Qed.

Lemma removeTrailingBlankLines_none (s : string) :
  Shape.hasLineFeed s = false -> removeTrailingBlankLines 0 s = s.
Proof.
  induction s as [|c rest IH]; [reflexivity|].
  simpl Shape.hasLineFeed. intros Hs. apply orb_false_iff in Hs as [Hc Hrest].
  change (removeTrailingBlankLines 0 (String c rest))
    with (match (if isLF c then blankToLineEnd rest else None) with
          | Some k => removeTrailingBlankLines k rest
          | None => String c (removeTrailingBlankLines 0 rest)
          end).
  rewrite Hc. now rewrite (IH Hrest).
Qed.

(** X22.  A formula on one line that contains neither [//] nor [/*] is
    only trimmed by the cleaning: nothing inside it is changed. *)
Theorem cleanFormula_of_plain_line (formula : string) :
  Shape.hasLineComment formula = false ->
  Shape.hasBlockStart formula = false ->
  Shape.hasLineFeed formula = false ->
  cleanFormula formula = trim formula.
Proof.
  intros Hline Hblock Hfeed.
  destruct (cleanFormula_is_trimmed formula) as [-> _].
  rewrite (removeLineComments_none _ Hline).
  rewrite (removeBlockComments_none _ Hblock).
  rewrite (removeLeadingBlankLines_none _ true Hfeed).
  now rewrite (removeTrailingBlankLines_none _ Hfeed).
Qed.

Lemma cleanFormula_of_plain_line_witness :
  cleanFormula "  attack / 2 + defense * 3 " = trim "  attack / 2 + defense * 3 ".
Proof.
  apply (cleanFormula_of_plain_line "  attack / 2 + defense * 3 ");
    reflexivity.
Defined.

(** ** What the project page shows of an entity *)

Lemma stored_defined (data : obj) (k : string) (v : value) :
  getProp data k = v ->
  v <> VUndefined ->
  getProp (EntityDisplay.stored data) k = EntityDisplay.jsonValue v
  /\ hasProp (EntityDisplay.stored data) k = true.
Proof.
  unfold EntityDisplay.stored, CreateTemplateModal.serialized.
  induction data as [|[k' v'] data IH]; simpl.
  - intros <- H. now contradiction H.
  - destruct (String.eqb k k') eqn:E.
    + intros -> Hv. destruct v; try (now contradiction Hv); simpl;
        rewrite E; now split.
    + intros Hget Hv. destruct v'; simpl; try rewrite E; now apply IH.
Qed.

Lemma stored_absent (data : obj) (k : string) :
  forallb (fun kv => negb (String.eqb (fst kv) k)) data = true ->
  hasProp (EntityDisplay.stored data) k = false.
Proof.
  unfold EntityDisplay.stored, CreateTemplateModal.serialized.
  induction data as [|[k' v'] data IH]; simpl; [reflexivity|].
  intros H. apply andb_prop in H as [Hk Hrest]. apply negb_true_iff in Hk.
  rewrite String.eqb_sym in Hk.
  destruct v'; simpl; try rewrite Hk; now apply IH.
Qed.

Lemma stored_undefined (data : obj) (k : string) :
  Shape.inOrder data = true ->
  getProp data k = VUndefined ->
  hasProp (EntityDisplay.stored data) k = false.
Proof.
  induction data as [|[k' v'] data IH]; simpl; [reflexivity|].
  intros H. apply andb_prop in H as [Hafter Hrest].
  destruct (String.eqb k k') eqn:E.
  - intros ->. apply String.eqb_eq in E. subst k'.
    unfold EntityDisplay.stored. simpl.
    apply stored_absent. apply forallb_forall. intros kv Hin.
    rewrite forallb_forall in Hafter. specialize (Hafter kv Hin).
    now apply andb_prop in Hafter as [Hne _].
  - intros Hget. specialize (IH Hrest Hget).
    unfold EntityDisplay.stored, CreateTemplateModal.serialized in *.
    simpl. destruct v'; simpl; try rewrite E; exact IH.
Qed.

Lemma findField_unique (before after : list FieldSchema) (f : FieldSchema) :
  NoDup (map name (before ++ f :: after)) ->
  EntityDisplay.findField (before ++ f :: after) (name f) = Some f.
Proof.
  unfold EntityDisplay.findField.
  induction before as [|g before IH]; simpl.
  - now rewrite String.eqb_refl.
  - intros H. inversion H as [|x l Hnotin Hrest]; subst.
    destruct (String.eqb (name g) (name f)) eqn:E.
    + apply String.eqb_eq in E. exfalso. apply Hnotin. rewrite E.
      rewrite map_app. apply in_or_app. right. now left.
    + now apply IH.
Qed.

(** X23.  A computed field whose formula failed with message [m], in a
    schema with unique field names and a pass that ran to its end: in
    the data as stored and returned by the server its entry is the text
    [ERROR: ] followed by [m]; the project page shows that text, with
    the badge of computed fields, and does not list the field as "Not
    computed". *)
Theorem failed_field_is_shown_as_error_text {World : Type}
  (newFunction : host World)
  (before after : list FieldSchema) (f : FieldSchema)
  (formData : obj) (w w1 : World) (arrays : obj) (st final : passState World)
  (e : thrown) (m : string) :
  NoDup (map name (before ++ f :: after)) ->
  isEvaluated f = true ->
  forEach newFunction before (initialState formData w) = Normal st ->
  compute newFunction st f = (Threw e, arrays, w1) ->
  messageOf e = inl m ->
  evaluateComputed newFunction (before ++ f :: after) formData w = Normal final ->
  getProp (EntityDisplay.stored (finalData final)) (name f)
  = VStr ("ERROR: " ++ m)
  /\ EntityDisplay.showEntry (before ++ f :: after) (name f)
       (getProp (EntityDisplay.stored (finalData final)) (name f))
     = (Some (EntityDisplay.Text ("ERROR: " ++ m)), true)
  /\ ~ In f (EntityDisplay.notComputed (before ++ f :: after)
               (EntityDisplay.stored (finalData final))).
Proof.
  intros Hnodup He Hbefore Hthrow Hm Hrun.
  assert (Hentry : getProp (finalData final) (name f) = VStr ("ERROR: " ++ m)).
  { unfold evaluateComputed in Hrun.
    rewrite forEach_app, Hbefore in Hrun. simpl in Hrun.
    rewrite (evaluateField_failed newFunction st f e arrays w1 m He Hthrow Hm)
      in Hrun.
    destruct (forEach_normal_other newFunction after _ final (name f) Hrun)
      as [Hheld _].
    - rewrite map_app in Hnodup. simpl in Hnodup.
      apply NoDup_remove_2 in Hnodup. intros Hin. apply Hnodup.
      apply in_or_app. now right.
    - simpl in Hheld. rewrite getProp_setProp_same in Hheld. exact Hheld. }
  destruct (stored_defined _ _ _ Hentry) as [Hget Hhas]; [discriminate|].
  simpl in Hget.
  assert (Htype : type f = "computed") by now apply isEvaluated_computed.
  split; [exact Hget|]. split.
  - unfold EntityDisplay.showEntry. rewrite (findField_unique _ _ _ Hnodup).
    rewrite Hget. simpl. now rewrite Htype.
  - unfold EntityDisplay.notComputed. intros Hin.
    apply filter_In in Hin as [_ Hout]. unfold EntityDisplay.inData in Hout.
    rewrite Hhas in Hout. discriminate.
Qed.

Lemma failed_field_is_shown_as_error_text_witness :
  EntityDisplay.showEntry ([] ++ computed "x" "c + 1" :: [computed "z" "x * 2"])
    "x"
    (getProp (EntityDisplay.stored
                [("x", VStr "ERROR: c is not defined"); ("z", VNum NNaN)]) "x")
  = (Some (EntityDisplay.Text ("ERROR: " ++ "c is not defined")), true).
Proof.
  refine (proj1 (proj2 (failed_field_is_shown_as_error_text MiniJs.newFunction
            [] [computed "z" "x * 2"] (computed "x" "c + 1") [] [] [] []
            (initialState [] [])
            {| finalData := [("x", VStr "ERROR: c is not defined");
                             ("z", VNum NNaN)];
               error := Some (errorText "x" "c is not defined");
               world := [] |}
            (ThrownError "ReferenceError" "c is not defined")
            "c is not defined" _ eq_refl eq_refl _ eq_refl _))).
  - repeat constructor; simpl; intuition discriminate.
  - vm_compute. reflexivity.
  - vm_compute. reflexivity.
Defined.

(** X24.  For data in enumeration order, the fields the project page
    lists as "Not computed" are exactly the fields of type [computed]
    whose entry reads [undefined] in the data that was posted (no entry
    at all, or a formula that returned [undefined], which the request
    body drops), apart from the names every object inherits. *)
Theorem not_computed_fields (schema : list FieldSchema) (data : obj)
  (g : FieldSchema) :
  Shape.inOrder data = true ->
  In g (EntityDisplay.notComputed schema (EntityDisplay.stored data))
  <-> (In g schema
       /\ type g = "computed"
       /\ getProp data (name g) = VUndefined
       /\ MiniJs.memString (name g) EntityDisplay.inheritedNames = false).
Proof.
  intros Hin. unfold EntityDisplay.notComputed, EntityDisplay.inData.
  rewrite !filter_In. split.
  - intros [[Hg Ht] Hout]. apply String.eqb_eq in Ht.
    apply negb_true_iff, orb_false_iff in Hout as [Hhas Hinh].
    repeat split; try assumption.
    destruct (getProp data (name g)) eqn:E; try reflexivity;
      (destruct (stored_defined _ _ _ E) as [_ H]; [discriminate|]; congruence).
  - intros (Hg & Ht & Hget & Hinh). split; [split; [exact Hg|]|].
    + now apply String.eqb_eq.
    + rewrite (stored_undefined _ _ Hin Hget), Hinh. reflexivity.
Qed.

Lemma not_computed_fields_witness :
  In (plain "power" "computed")
     (EntityDisplay.notComputed [plain "power" "computed"]
        (EntityDisplay.stored [("level", VNum (NInt 3))]))
  <-> (In (plain "power" "computed") [plain "power" "computed"]
       /\ type (plain "power" "computed") = "computed"
       /\ getProp [("level", VNum (NInt 3))] (name (plain "power" "computed"))
          = VUndefined
       /\ MiniJs.memString (name (plain "power" "computed"))
            EntityDisplay.inheritedNames = false).
Proof.
  apply (not_computed_fields [plain "power" "computed"]
           [("level", VNum (NInt 3))] (plain "power" "computed")).
  reflexivity.
Defined.

(** ** From the formula editor to the schema *)

Lemma cleanField_formula_kept (field entry : obj) :
  TemplateFields.cleanField field = inl entry ->
  TemplateFields.isComputedType (getProp field "type") = true ->
  getProp entry "formula" = getProp field "formula".
Proof.
  unfold TemplateFields.cleanField, CreateTemplateModal.spread.
  intros H Hc. rewrite Hc in H.
  destruct (TemplateFields.isSelectType _);
    [destruct (TemplateFields.splitOptions _) as [pieces|e]; [|discriminate]|];
    simpl in H; injection H as <-; reflexivity.
Qed.

Lemma cleanFields_nth (fields entries : list obj) (i : nat) (field : obj) :
  TemplateFields.cleanFields fields = inl entries ->
  nth_error fields i = Some field ->
  exists entry, nth_error entries i = Some entry
                /\ TemplateFields.cleanField field = inl entry.
Proof.
  revert entries i. induction fields as [|f fields IH]; intros entries i; simpl.
  - intros _ H. now destruct i.
  - destruct (TemplateFields.cleanField f) as [e|t] eqn:Ef; [|discriminate].
    destruct (TemplateFields.cleanFields fields) as [es|t]; [|discriminate].
    intros H. injection H as <-. destruct i as [|i]; simpl.
    + intros Hf. injection Hf as <-. now exists e.
    + intros Hf. now apply (IH es i eq_refl).
Qed.

(** X25.  A formula saved in the formula editor for a field of type
    [computed] reaches the schema of the template as it was typed: when
    the cleaning of the fields succeeds, the entry at the field's
    position has that very text as its [formula], comments and white
    space included. *)
Theorem saved_formula_reaches_schema (fields updated entries : list obj)
  (index : nat) (field : obj) (formulaSource : string) :
  nth_error fields index = Some field ->
  TemplateFields.isComputedType (getProp field "type") = true ->
  TemplateFields.updateField fields index "formula" (VStr formulaSource)
  = inl updated ->
  TemplateFields.cleanFields updated = inl entries ->
  exists entry,
    nth_error entries index = Some entry
    /\ getProp entry "formula" = VStr formulaSource
    /\ getProp entry "name" = getProp field "name".
Proof.
  intros Hfield Htype Hupdate Hclean.
  unfold TemplateFields.updateField in Hupdate.
  pose proof (updateAt_spec fields index "formula" (VStr formulaSource)) as H.
  destruct (TemplateFields.updateAt fields index "formula" (VStr formulaSource))
    as [updated'|]; [|discriminate].
  injection Hupdate as ->.
  destruct H as (_ & _ & _ & old & Hold & Hnew).
  rewrite Hfield in Hold. injection Hold as <-.
  destruct (cleanFields_nth _ _ _ _ Hclean Hnew) as (entry & Hentry & Hcf).
  exists entry. split; [exact Hentry|].
  assert (Htype' : TemplateFields.isComputedType
                     (getProp (setProp field "formula" (VStr formulaSource))
                              "type") = true).
  { rewrite getProp_setProp_other by discriminate. exact Htype. }
  split.
  - rewrite (cleanField_formula_kept _ _ Hcf Htype').
    apply getProp_setProp_same.
  - destruct (cleanField_name_type _ _ Hcf) as [-> _].
    now apply getProp_setProp_other.
Qed.

Lemma saved_formula_reaches_schema_witness :
  exists entry,
    nth_error [ [("name", VStr "power"); ("type", VStr "computed");
                 ("formula", VStr ("// sum" ++ LF ++ "a + b")%string)] ] 0 = Some entry
    /\ getProp entry "formula" = VStr ("// sum" ++ LF ++ "a + b")%string
    /\ getProp entry "name"
       = getProp [("name", VStr "power"); ("type", VStr "computed");
                  ("options", VStr EmptyString)] "name".
Proof.
  apply (saved_formula_reaches_schema
           [ [("name", VStr "power"); ("type", VStr "computed");
              ("options", VStr EmptyString)] ]
           [ [("name", VStr "power"); ("type", VStr "computed");
              ("options", VStr EmptyString);
              ("formula", VStr ("// sum" ++ LF ++ "a + b")%string)] ]
           [ [("name", VStr "power"); ("type", VStr "computed");
              ("formula", VStr ("// sum" ++ LF ++ "a + b")%string)] ]
           0
           [("name", VStr "power"); ("type", VStr "computed");
            ("options", VStr EmptyString)]
           ("// sum" ++ LF ++ "a + b")%string); reflexivity.
Defined.

(** X26.  In the edit modal, a loaded field that has no [options]
    (every stored field that is not a select or multiselect field)
    whose type is changed to [select]: cleaning it throws a TypeError
    as long as no options were typed, and succeeds once some text was
    typed, with the options split from that text. *)
Theorem new_select_field_needs_options (field : obj) (optionsText : string) :
  hasProp field "options" = false ->
  TemplateFields.cleanField (setProp field "type" (VStr "select"))
  = inr (ThrownError "TypeError"
           "Cannot read properties of undefined (reading 'split')")
  /\ exists entry,
       TemplateFields.cleanField
         (setProp (setProp field "type" (VStr "select"))
                  "options" (VStr optionsText))
       = inl entry
       /\ getProp entry "options" = VArr (map trim (split_comma optionsText))
       /\ getProp entry "name" = getProp field "name".
Proof.
  intros Habsent. split.
  - unfold TemplateFields.cleanField.
    rewrite getProp_setProp_same.
    rewrite (getProp_setProp_other field "type" "options") by discriminate.
    now rewrite (getProp_absent _ _ Habsent).
  - unfold TemplateFields.cleanField.
    rewrite (getProp_setProp_other _ "options" "type") by discriminate.
    rewrite (getProp_setProp_other _ "options" "name") by discriminate.
    rewrite (getProp_setProp_other _ "type" "name") by discriminate.
    rewrite !getProp_setProp_same. simpl.
    eexists. split; [reflexivity|]. split; reflexivity.
Qed.

Lemma new_select_field_needs_options_witness :
  TemplateFields.cleanField
    (setProp [("name", VStr "rank"); ("type", VStr "number")]
             "type" (VStr "select"))
  = inr (ThrownError "TypeError"
           "Cannot read properties of undefined (reading 'split')").
Proof.
  refine (proj1 (new_select_field_needs_options
            [("name", VStr "rank"); ("type", VStr "number")] "a,b" _)).
  reflexivity.
Defined.
